(** * Maestral GUI: daemon supervisor, status reconciler and error dispatcher

    A shallow embedding of [MaestralGuiApp] (maestral/gui/main.py).  The
    methods of the class are written as computations in a state-and-exception
    monad: the state holds the attributes of the Python object, the Qt
    widgets it owns, the daemon behind the proxy and the host, and a trace of
    every call that leaves the object (proxy methods, dialogs, process
    control, Qt application calls). *)

From Stdlib Require Import ZArith Ascii String.
From stdpp Require Import base option list gmap strings pretty.

(** ** What the module imports *)

(** Names main.py imports from modules of the package that are not part of
    this development, and facts of the host it runs on.  They are parameters
    of everything below. *)
Class Externals := {
  (** maestral.gui.resources *)
  QIcon : Type;
  get_system_tray_icon : string → option string → QIcon;
  (** maestral.gui.utils *)
  elide_string : string → string;
  (** maestral.sync.constants *)
  IDLE : string;
  SYNCING : string;
  PAUSED : string;
  STOPPED : string;
  DISCONNECTED : string;
  SYNC_ERROR : string;
  IS_MACOS_BUNDLE : bool;
  (** platform.system(), sys._MEIPASS, os.getenv("MAESTRAL_CONFIG") *)
  platform_system : string;
  sys_MEIPASS : string;
  env_MAESTRAL_CONFIG : option string;
}.

(** ** Data model *)

(** One entry of [get_maestral_errors()]: the daemon serialises an exception
    as a dict; main.py reads the keys "type", "title", "message" and
    "traceback". *)
Record ErrorDict := {
  err_type : string;
  err_title : string;
  err_message : string;
  err_traceback : option string;
}.

(** [RelinkDialog.REVOKED] and [RelinkDialog.EXPIRED]. *)
Inductive RelinkReason := REVOKED | EXPIRED.

(** A menu entry: [QAction.text()] and [QAction.isEnabled()]. *)
Record QAction := { text : string; enabled : bool }.

Definition setText (t : string) (a : QAction) : QAction :=
  {| text := t; enabled := enabled a |}.

Definition setEnabled (b : bool) (a : QAction) : QAction :=
  {| text := text a; enabled := b |}.

(** The handle returned by [get_maestral_daemon_proxy(config_name)]. *)
Record Proxy := { proxy_config : string }.

(** Modelled from the spec: the daemon behind the proxy (maestral.sync.daemon
    is not part of this development).  It holds the queue read by
    [pendingErrors()] and emptied by [clearErrors()], the list of sync
    issues, and the values returned by [status()], [paused()] and
    [getConfig("account", "usage")].  The daemon is taken to answer every
    remote call; how it reacts to [stop_sync] and the like is its own
    business and shows here only as a call in the trace. *)
Record Daemon := {
  maestral_errors : list ErrorDict;
  sync_errors : list ErrorDict;
  status : string;
  paused : bool;
  conf_account_usage : string;
}.

(** The host: what the process registry answers for [CONFIG_NAME], what a
    launch of the daemon reports, and the pid of the GUI process. *)
Record Host := {
  maestral_pid : option Z;
  start_result : bool;
  os_getpid : Z;
}.

(** Calls that leave the GUI object, in the order they are made.  A modal
    dialog is the one call [exec_()]; what the user does in it is not part
    of main.py. *)
Inductive Event :=
  | clear_maestral_errors
  | stop_sync
  | start_sync
  | pause_sync
  | resume_sync
  | pyroRelease
  | UserDialog_exec (title message : string) (exc_info : option string)
  | RelinkDialog_exec (reason : RelinkReason)
  | sync_issues_window_reload
  | start_maestral_daemon_thread (config_name : string)
  | start_maestral_daemon_process (config_name : string)
  | stop_maestral_daemon_process (config_name : string)
  | get_maestral_daemon_proxy (config_name : string)
  | Popen (cmd : string)
  | deleteLater
  | QCoreApplication_quit.

Global Instance RelinkReason_eq_dec : EqDecision RelinkReason.
Proof. solve_decision. Defined.

Global Instance Event_eq_dec : EqDecision Event.
Proof. solve_decision. Defined.

(** Python exceptions the methods can raise. *)
Inductive Exn :=
  | AttributeError (attr : string)
  | KeyError (key : string)
  | SystemExit (code : Z).

Inductive Outcome (A : Type) :=
  | Ret (a : A)
  | Raise (e : Exn).
Arguments Ret {A} a.
Arguments Raise {A} e.

Section Gui.
Context `{Externals}.

(** The attributes of a [MaestralGuiApp] instance.  An action that
    [setup_ui_linked] has not created yet is [None] ([hasattr] is false). *)
Record MaestralGuiApp := {
  mdbx : option Proxy;
  _started : bool;
  _context_menu_visible : bool;
  icons : gmap string QIcon;
  _current_icon : string;
  _n_errors : option nat;
  _status : option string;
  pauseAction : option QAction;
  syncIssuesAction : option QAction;
  accountUsageAction : option QAction;
  statusAction : option QAction;
  (** state of the [QSystemTrayIcon] base object and of the timer *)
  tray_icon : option QIcon;
  tray_toolTip : option string;
  update_ui_timer_active : bool;
}.

Record State := {
  self : MaestralGuiApp;
  daemon : Daemon;
  host : Host;
  trace : list Event;
}.

(** ** The monad *)

Definition M (A : Type) : Type := State → Outcome A * State.

Definition ret {A} (a : A) : M A := λ s, (Ret a, s).

Definition raise {A} (e : Exn) : M A := λ s, (Raise e, s).

Definition bind {A B} (m : M A) (k : A → M B) : M B :=
  λ s, match m s with
       | (Ret a, s') => k a s'
       | (Raise e, s') => (Raise e, s')
       end.

End Gui.

Declare Scope py_scope.
Delimit Scope py_scope with py.
Notation "'let*' x ':=' m 'in' k" := (bind m (λ x, k))
  (at level 10, x name, m at level 100, k at level 200) : py_scope.
Notation "m ';>' k" := (bind m (λ _, k))
  (at level 100, k at level 200, right associativity) : py_scope.
Local Open Scope py_scope.

(** ** Attribute assignment *)

Section Setters.
Context `{Externals}.

Definition set__started (v : bool) (a : MaestralGuiApp) : MaestralGuiApp :=
  {| mdbx := mdbx a; _started := v;
     _context_menu_visible := _context_menu_visible a; icons := icons a;
     _current_icon := _current_icon a; _n_errors := _n_errors a;
     _status := _status a; pauseAction := pauseAction a;
     syncIssuesAction := syncIssuesAction a;
     accountUsageAction := accountUsageAction a;
     statusAction := statusAction a; tray_icon := tray_icon a;
     tray_toolTip := tray_toolTip a;
     update_ui_timer_active := update_ui_timer_active a |}.

Definition set_icons (v : gmap string QIcon) (a : MaestralGuiApp)
  : MaestralGuiApp :=
  {| mdbx := mdbx a; _started := _started a;
     _context_menu_visible := _context_menu_visible a; icons := v;
     _current_icon := _current_icon a; _n_errors := _n_errors a;
     _status := _status a; pauseAction := pauseAction a;
     syncIssuesAction := syncIssuesAction a;
     accountUsageAction := accountUsageAction a;
     statusAction := statusAction a; tray_icon := tray_icon a;
     tray_toolTip := tray_toolTip a;
     update_ui_timer_active := update_ui_timer_active a |}.

Definition set__current_icon (v : string) (a : MaestralGuiApp)
  : MaestralGuiApp :=
  {| mdbx := mdbx a; _started := _started a;
     _context_menu_visible := _context_menu_visible a; icons := icons a;
     _current_icon := v; _n_errors := _n_errors a;
     _status := _status a; pauseAction := pauseAction a;
     syncIssuesAction := syncIssuesAction a;
     accountUsageAction := accountUsageAction a;
     statusAction := statusAction a; tray_icon := tray_icon a;
     tray_toolTip := tray_toolTip a;
     update_ui_timer_active := update_ui_timer_active a |}.

Definition set__n_errors (v : option nat) (a : MaestralGuiApp)
  : MaestralGuiApp :=
  {| mdbx := mdbx a; _started := _started a;
     _context_menu_visible := _context_menu_visible a; icons := icons a;
     _current_icon := _current_icon a; _n_errors := v;
     _status := _status a; pauseAction := pauseAction a;
     syncIssuesAction := syncIssuesAction a;
     accountUsageAction := accountUsageAction a;
     statusAction := statusAction a; tray_icon := tray_icon a;
     tray_toolTip := tray_toolTip a;
     update_ui_timer_active := update_ui_timer_active a |}.

Definition set__status (v : option string) (a : MaestralGuiApp)
  : MaestralGuiApp :=
  {| mdbx := mdbx a; _started := _started a;
     _context_menu_visible := _context_menu_visible a; icons := icons a;
     _current_icon := _current_icon a; _n_errors := _n_errors a;
     _status := v; pauseAction := pauseAction a;
     syncIssuesAction := syncIssuesAction a;
     accountUsageAction := accountUsageAction a;
     statusAction := statusAction a; tray_icon := tray_icon a;
     tray_toolTip := tray_toolTip a;
     update_ui_timer_active := update_ui_timer_active a |}.

Definition set_pauseAction (v : option QAction) (a : MaestralGuiApp)
  : MaestralGuiApp :=
  {| mdbx := mdbx a; _started := _started a;
     _context_menu_visible := _context_menu_visible a; icons := icons a;
     _current_icon := _current_icon a; _n_errors := _n_errors a;
     _status := _status a; pauseAction := v;
     syncIssuesAction := syncIssuesAction a;
     accountUsageAction := accountUsageAction a;
     statusAction := statusAction a; tray_icon := tray_icon a;
     tray_toolTip := tray_toolTip a;
     update_ui_timer_active := update_ui_timer_active a |}.

Definition set_syncIssuesAction (v : option QAction) (a : MaestralGuiApp)
  : MaestralGuiApp :=
  {| mdbx := mdbx a; _started := _started a;
     _context_menu_visible := _context_menu_visible a; icons := icons a;
     _current_icon := _current_icon a; _n_errors := _n_errors a;
     _status := _status a; pauseAction := pauseAction a;
     syncIssuesAction := v;
     accountUsageAction := accountUsageAction a;
     statusAction := statusAction a; tray_icon := tray_icon a;
     tray_toolTip := tray_toolTip a;
     update_ui_timer_active := update_ui_timer_active a |}.

Definition set_accountUsageAction (v : option QAction) (a : MaestralGuiApp)
  : MaestralGuiApp :=
  {| mdbx := mdbx a; _started := _started a;
     _context_menu_visible := _context_menu_visible a; icons := icons a;
     _current_icon := _current_icon a; _n_errors := _n_errors a;
     _status := _status a; pauseAction := pauseAction a;
     syncIssuesAction := syncIssuesAction a;
     accountUsageAction := v;
     statusAction := statusAction a; tray_icon := tray_icon a;
     tray_toolTip := tray_toolTip a;
     update_ui_timer_active := update_ui_timer_active a |}.

Definition set_statusAction (v : option QAction) (a : MaestralGuiApp)
  : MaestralGuiApp :=
  {| mdbx := mdbx a; _started := _started a;
     _context_menu_visible := _context_menu_visible a; icons := icons a;
     _current_icon := _current_icon a; _n_errors := _n_errors a;
     _status := _status a; pauseAction := pauseAction a;
     syncIssuesAction := syncIssuesAction a;
     accountUsageAction := accountUsageAction a;
     statusAction := v; tray_icon := tray_icon a;
     tray_toolTip := tray_toolTip a;
     update_ui_timer_active := update_ui_timer_active a |}.

Definition set_tray_icon (v : option QIcon) (a : MaestralGuiApp)
  : MaestralGuiApp :=
  {| mdbx := mdbx a; _started := _started a;
     _context_menu_visible := _context_menu_visible a; icons := icons a;
     _current_icon := _current_icon a; _n_errors := _n_errors a;
     _status := _status a; pauseAction := pauseAction a;
     syncIssuesAction := syncIssuesAction a;
     accountUsageAction := accountUsageAction a;
     statusAction := statusAction a; tray_icon := v;
     tray_toolTip := tray_toolTip a;
     update_ui_timer_active := update_ui_timer_active a |}.

Definition set_tray_toolTip (v : option string) (a : MaestralGuiApp)
  : MaestralGuiApp :=
  {| mdbx := mdbx a; _started := _started a;
     _context_menu_visible := _context_menu_visible a; icons := icons a;
     _current_icon := _current_icon a; _n_errors := _n_errors a;
     _status := _status a; pauseAction := pauseAction a;
     syncIssuesAction := syncIssuesAction a;
     accountUsageAction := accountUsageAction a;
     statusAction := statusAction a; tray_icon := tray_icon a;
     tray_toolTip := v;
     update_ui_timer_active := update_ui_timer_active a |}.

Definition set_update_ui_timer_active (v : bool) (a : MaestralGuiApp)
  : MaestralGuiApp :=
  {| mdbx := mdbx a; _started := _started a;
     _context_menu_visible := _context_menu_visible a; icons := icons a;
     _current_icon := _current_icon a; _n_errors := _n_errors a;
     _status := _status a; pauseAction := pauseAction a;
     syncIssuesAction := syncIssuesAction a;
     accountUsageAction := accountUsageAction a;
     statusAction := statusAction a; tray_icon := tray_icon a;
     tray_toolTip := tray_toolTip a;
     update_ui_timer_active := v |}.

Definition set_maestral_errors (v : list ErrorDict) (d : Daemon) : Daemon :=
  {| maestral_errors := v; sync_errors := sync_errors d;
     status := status d; paused := paused d;
     conf_account_usage := conf_account_usage d |}.

(** ** Primitive computations *)

Definition get_self : M MaestralGuiApp := λ s, (Ret (self s), s).

Definition modify_self (f : MaestralGuiApp → MaestralGuiApp) : M unit :=
  λ s, (Ret tt, {| self := f (self s); daemon := daemon s;
                   host := host s; trace := trace s |}).

Definition get_daemon : M Daemon := λ s, (Ret (daemon s), s).

Definition modify_daemon (f : Daemon → Daemon) : M unit :=
  λ s, (Ret tt, {| self := self s; daemon := f (daemon s);
                   host := host s; trace := trace s |}).

Definition get_host : M Host := λ s, (Ret (host s), s).

(** Record a call in the trace. *)
Definition call (e : Event) : M unit :=
  λ s, (Ret tt, {| self := self s; daemon := daemon s;
                   host := host s; trace := trace s ++ [e] |}).

(** [self.mdbx.<attr>]: fails on [None] with an AttributeError. *)
Definition the_proxy (attr : string) : M Proxy :=
  let* me := get_self in
  match mdbx me with
  | Some p => ret p
  | None => raise (AttributeError attr)
  end.

(** Reading a remote attribute of the proxy. *)
Definition proxy_get {A} (attr : string) (f : Daemon → A) : M A :=
  the_proxy attr ;>
  let* d := get_daemon in
  ret (f d).

(** Calling a remote method of the proxy. *)
Definition proxy_call (attr : string) (e : Event) : M unit :=
  the_proxy attr ;> call e.

(** [self.<action>.<method>(...)] on a menu entry held in an attribute. *)
Definition on_action (attr : string)
    (get : MaestralGuiApp → option QAction)
    (set : option QAction → MaestralGuiApp → MaestralGuiApp)
    (f : QAction → QAction) : M unit :=
  let* me := get_self in
  match get me with
  | Some a => modify_self (set (Some (f a)))
  | None => raise (AttributeError attr)
  end.

(** [d[key]] on a dict. *)
Definition getitem {V} (d : gmap string V) (key : string) : M V :=
  match d !! key with
  | Some v => ret v
  | None => raise (KeyError key)
  end.

End Setters.

(** ** The methods of [MaestralGuiApp] *)

Section Methods.
Context `{Externals}.

(** [CONFIG_NAME = os.getenv("MAESTRAL_CONFIG", "maestral")] *)
Definition CONFIG_NAME : string := default "maestral" env_MAESTRAL_CONFIG.

Definition PAUSE_TEXT : string := "Pause Syncing".
Definition RESUME_TEXT : string := "Resume Syncing".

(** The one-character string holding a double quote. *)
Definition dquote : string := String "034"%char EmptyString.

(** [os.path.join(a, b)] for two components (posixpath). *)
Definition os_path_join (a b : string) : string :=
  if String.prefix "/" b then b
  else if bool_decide (a = EmptyString)
          || bool_decide (String.get (Nat.pred (String.length a)) a
                          = Some "/"%char)
  then a +:+ b
  else a +:+ "/" +:+ b.

(** Truth value of what [get_maestral_pid] returns: [None] and [0] are
    false. *)
Definition pid_truthy (pid : option Z) : bool :=
  match pid with
  | Some p => negb (p =? 0)%Z
  | None => false
  end.

Definition contextMenuVisible (me : MaestralGuiApp) : bool :=
  _context_menu_visible me.

(** The dict literal of [load_tray_icons]; a key written twice keeps the
    later value. *)
Definition icon_mapping : gmap string string :=
  <[SYNC_ERROR := "error"]>
  (<[DISCONNECTED := "disconnected"]>
  (<[STOPPED := "error"]>
  (<[PAUSED := "paused"]>
  (<[SYNCING := "syncing"]>
  (<[IDLE := "idle"]> ∅))))).

Definition load_tray_icons (me : MaestralGuiApp) : gmap string QIcon :=
  let color :=
    if contextMenuVisible me && bool_decide (platform_system = "Darwin")
    then Some "light" else None in
  map_fold (λ key name icons, <[key := get_system_tray_icon name color]> icons)
           ∅ icon_mapping.

Definition setIcon (icon_name : string) : M unit :=
  let* me := get_self in
  (* the default of [dict.get] is evaluated before the lookup *)
  let* fallback := getitem (icons me) SYNCING in
  let icon := default fallback (icons me !! icon_name) in
  modify_self (set__current_icon icon_name) ;>
  modify_self (set_tray_icon (Some icon)).

Definition reload_icons : M unit :=
  let* me := get_self in
  modify_self (set_icons (load_tray_icons me)) ;>
  let* me := get_self in
  setIcon (_current_icon me).

Definition setToolTip (text : string) : M unit :=
  if negb (bool_decide (platform_system = "Darwin"))
  then modify_self (set_tray_toolTip (Some text))
  else ret tt.

Definition quit (stop_daemon : option bool) : M unit :=
  let* me := get_self in
  let stop_daemon := default (_started me) stop_daemon in
  modify_self (set_update_ui_timer_active false) ;>
  (if stop_daemon && bool_decide (is_Some (mdbx me)) && negb IS_MACOS_BUNDLE
   then proxy_call "_pyroRelease" pyroRelease ;>
        call (stop_maestral_daemon_process CONFIG_NAME)
   else ret tt) ;>
  call deleteLater ;>
  call QCoreApplication_quit ;>
  raise (SystemExit 0).

Definition restart : M unit :=
  let* h := get_host in
  let pid := os_getpid h in
  let config_name := default "maestral" env_MAESTRAL_CONFIG in
  (if IS_MACOS_BUNDLE
   then let launch_command := os_path_join sys_MEIPASS "main" in
        call (Popen ("lsof -p " +:+ launch_command
                     +:+ " +r 1 &>/dev/null; " +:+ launch_command))
   else ret tt) ;>
  (if bool_decide (platform_system = "Darwin")
   then call (Popen ("lsof -p " +:+ pretty pid
                     +:+ " +r 1 &>/dev/null; maestral gui --config-name='"
                     +:+ config_name +:+ "'"))
   else if bool_decide (platform_system = "Linux")
   then call (Popen ("tail --pid=" +:+ pretty pid
                     +:+ " -f /dev/null; maestral gui --config-name='"
                     +:+ config_name +:+ "'"))
   else ret tt) ;>
  quit (Some true).

Definition _get_or_start_maestral_daemon : M Proxy :=
  let* h := get_host in
  let pid := maestral_pid h in
  (if pid_truthy pid
   then modify_self (set__started false)
   else
     let* res :=
       (if IS_MACOS_BUNDLE
        then call (start_maestral_daemon_thread CONFIG_NAME) ;>
             ret (start_result h)
        else call (start_maestral_daemon_process CONFIG_NAME) ;>
             ret (start_result h)) in
     modify_self (set__started true) ;>
     if negb res
     then call (UserDialog_exec "Could not start Maestral"
                  ("Could not start or connect to sync daemon. Please try again and "
                   +:+ "contact the developer if this issue persists.")
                  None) ;>
          quit None
     else ret tt) ;>
  call (get_maestral_daemon_proxy CONFIG_NAME) ;>
  ret {| proxy_config := CONFIG_NAME |}.

Definition _stop_and_exec_relink_dialog (reason : RelinkReason) : M unit :=
  setIcon SYNC_ERROR ;>
  let* me := get_self in
  (if bool_decide (is_Some (mdbx me))
   then proxy_call "stop_sync" stop_sync else ret tt) ;>
  let* me := get_self in
  (if bool_decide (is_Some (pauseAction me))
   then on_action "pauseAction" pauseAction set_pauseAction
          (setText "Start Syncing") ;>
        on_action "pauseAction" pauseAction set_pauseAction
          (setEnabled false)
   else ret tt) ;>
  call (RelinkDialog_exec reason).

Definition _stop_and_exec_error_dialog (title message : string)
    (exc_info : option string) : M unit :=
  setIcon SYNC_ERROR ;>
  let* me := get_self in
  (if bool_decide (is_Some (mdbx me))
   then proxy_call "stop_sync" stop_sync else ret tt) ;>
  let* me := get_self in
  (if bool_decide (is_Some (pauseAction me))
   then on_action "pauseAction" pauseAction set_pauseAction
          (setText "Start Syncing")
   else ret tt) ;>
  call (UserDialog_exec title message exc_info).

(** [self.pauseAction.text()] *)
Definition pauseAction_text : M string :=
  let* me := get_self in
  match pauseAction me with
  | Some a => ret (text a)
  | None => raise (AttributeError "pauseAction")
  end.

Definition on_start_stop_clicked : M unit :=
  let* t := pauseAction_text in
  if bool_decide (t = PAUSE_TEXT)
  then
    proxy_call "pause_sync" pause_sync ;>
    on_action "pauseAction" pauseAction set_pauseAction (setText RESUME_TEXT)
  else
    let* t := pauseAction_text in
    if bool_decide (t = RESUME_TEXT)
    then
      proxy_call "resume_sync" resume_sync ;>
      on_action "pauseAction" pauseAction set_pauseAction (setText PAUSE_TEXT)
    else
      let* t := pauseAction_text in
      if bool_decide (t = "Start Syncing")
      then
        proxy_call "start_sync" start_sync ;>
        on_action "pauseAction" pauseAction set_pauseAction
          (setText PAUSE_TEXT)
      else ret tt.

(** The body of [update_error] after [err = errs[-1]]. *)
Definition dispatch_error (err : ErrorDict) : M unit :=
  if bool_decide (err_type err ∈ ["RevFileError"; "BadInputError"])
  then
    let title := err_title err in
    let message := err_message err in
    _stop_and_exec_error_dialog title message None
  else if bool_decide (err_type err = "CursorResetError")
  then
    let title := "Dropbox has reset its sync state." in
    let message := "Please go to " +:+ dquote +:+ "Rebuild index..." +:+ dquote
                   +:+ " to re-sync your Dropbox." in
    _stop_and_exec_error_dialog title message None
  else if bool_decide (err_type err = "DropboxDeletedError")
  then
    proxy_call "stop_sync" stop_sync ;>
    restart
  else if bool_decide (err_type err = "DropboxAuthError")
  then _stop_and_exec_relink_dialog REVOKED
  else if bool_decide (err_type err = "TokenExpiredError")
  then _stop_and_exec_relink_dialog EXPIRED
  else
    let title := "An unexpected error occurred." in
    let message := "Please restart Maestral to continue syncing and contact "
                   +:+ "the developer with the information below." in
    _stop_and_exec_error_dialog title message (err_traceback err) ;>
    proxy_call "start_sync" start_sync.

Definition update_error : M unit :=
  let* errs := proxy_get "get_maestral_errors" maestral_errors in
  match errs with
  | [] => ret tt
  | e0 :: _ =>
      proxy_call "clear_maestral_errors" clear_maestral_errors ;>
      modify_daemon (set_maestral_errors []) ;>
      let err := List.last errs e0 in
      dispatch_error err
  end.

Definition update_status : M unit :=
  let* n_errors := proxy_get "sync_errors" (λ d, length (sync_errors d)) in
  let* status := proxy_get "status" status in
  let* is_paused := proxy_get "paused" paused in
  let* me := get_self in
  if bool_decide (Some status = _status me)
     && bool_decide (Some n_errors = _n_errors me)
  then ret tt
  else
    let new_icon := if is_paused then PAUSED else status in
    setIcon new_icon ;>
    (if bool_decide (0 < n_errors)
     then on_action "syncIssuesAction" syncIssuesAction set_syncIssuesAction
            (setText ("Show Sync Issues (" +:+ pretty n_errors +:+ ")..."))
     else on_action "syncIssuesAction" syncIssuesAction set_syncIssuesAction
            (setText "Show Sync Issues...")) ;>
    on_action "pauseAction" pauseAction set_pauseAction
      (setText (if is_paused then RESUME_TEXT else PAUSE_TEXT)) ;>
    let* me := get_self in
    match accountUsageAction me with
    | None => raise (AttributeError "accountUsageAction")
    | Some _ =>
        let* usage := proxy_get "get_conf" conf_account_usage in
        on_action "accountUsageAction" accountUsageAction
          set_accountUsageAction (setText usage) ;>
        let status_short := elide_string status in
        on_action "statusAction" statusAction set_statusAction
          (setText status_short) ;>
        let* me := get_self in
        (* [self.sync_issues_window] is created by [setup_ui_linked]
           together with [self.syncIssuesAction], which exists here *)
        (if negb (bool_decide (Some n_errors = _n_errors me))
         then call sync_issues_window_reload else ret tt) ;>
        setToolTip status_short ;>
        modify_self (set__n_errors (Some n_errors)) ;>
        modify_self (set__status (Some status))
    end.

Definition update_ui : M unit :=
  let* me := get_self in
  if bool_decide (is_Some (mdbx me))
  then update_status ;> update_error
  else ret tt.

End Methods.

(** ** More methods of [MaestralGuiApp] *)

Section MoreMethods.
Context `{Externals}.

Definition set__context_menu_visible (v : bool) (a : MaestralGuiApp)
  : MaestralGuiApp :=
  {| mdbx := mdbx a; _started := _started a;
     _context_menu_visible := v; icons := icons a;
     _current_icon := _current_icon a; _n_errors := _n_errors a;
     _status := _status a; pauseAction := pauseAction a;
     syncIssuesAction := syncIssuesAction a;
     accountUsageAction := accountUsageAction a;
     statusAction := statusAction a; tray_icon := tray_icon a;
     tray_toolTip := tray_toolTip a;
     update_ui_timer_active := update_ui_timer_active a |}.

Definition _onContextMenuAboutToShow : M unit :=
  modify_self (set__context_menu_visible true) ;>
  if bool_decide (platform_system = "Darwin")
  then reload_icons
  else ret tt.

Definition _onContextMenuAboutToHide : M unit :=
  modify_self (set__context_menu_visible false) ;>
  if bool_decide (platform_system = "Darwin")
  then reload_icons
  else ret tt.

End MoreMethods.

(** ** The recent-files menu and the update notice *)

(** Two more things main.py takes from outside: the float [time.time()]
    returns, which is only stored, and [elide_string] as
    [update_recent_files] calls it, with the font of the menu and
    [side="right"]. *)
Class MenuExternals := {
  pyfloat : Type;
  elide_string_right : string → string;
}.

(** An entry of [self.recentFilesMenu]: the action made by [addAction] and
    the path its [triggered] signal passes to [click.launch(.., locate=True)]. *)
Record RecentAction := { recent_action : QAction; launches : string }.

(** The dict [check_for_updates] hands to [_notify_updates]; main.py reads
    the keys "error", "update_available", "latest_release" and
    "release_notes". *)
Record UpdateResult := {
  upd_error : option string;
  update_available : bool;
  latest_release : string;
  release_notes : string;
}.

(** Python's [s.replace(old, new)] for a non-empty [old]: the occurrences
    of [old] are replaced from left to right, without overlap.  [skip]
    counts the characters of a match still to be dropped. *)
Fixpoint str_replace_from (old new : string) (skip : nat) (s : string)
  : string :=
  match s with
  | EmptyString => EmptyString
  | String c s' =>
      match skip with
      | S k => str_replace_from old new k s'
      | O =>
          if String.prefix old s
          then new +:+ str_replace_from old new (Nat.pred (String.length old)) s'
          else String c (str_replace_from old new 0 s')
      end
  end.

Definition str_replace (old new s : string) : string :=
  str_replace_from old new 0 s.

(** [os.path.basename(p)] (posixpath): what follows the last slash. *)
Fixpoint basename_from (acc p : string) : string :=
  match p with
  | EmptyString => acc
  | String c p' =>
      if bool_decide (c = "/"%char)
      then basename_from EmptyString p'
      else basename_from (acc +:+ String c EmptyString) p'
  end.

Definition os_path_basename (p : string) : string :=
  basename_from EmptyString p.

Section AppStateDef.
Context `{Externals} `{MenuExternals}.

(** The state of [State], with what [update_recent_files] and
    [_notify_updates] read and write besides: the submenu attribute ([None]
    before [setup_ui_linked] creates it), the daemon's answers to
    [get_conf("internal", "recent_changes")] and [to_local_path], the value
    kept under ("app", "update_notification_last"), and the clock. *)
Record AppState := {
  core : State;
  recentFilesMenu : option (list RecentAction);
  conf_recent_changes : list string;
  daemon_to_local_path : string → string;
  conf_update_notification_last : pyfloat;
  time_time : pyfloat;
}.

Definition U (A : Type) : Type := AppState → Outcome A * AppState.

Definition U_ret {A} (a : A) : U A := λ s, (Ret a, s).

Definition U_raise {A} (e : Exn) : U A := λ s, (Raise e, s).

Definition U_bind {A B} (m : U A) (k : A → U B) : U B :=
  λ s, match m s with
       | (Ret a, s') => k a s'
       | (Raise e, s') => (Raise e, s')
       end.

End AppStateDef.

Notation "'let!' x ':=' m 'in' k" := (U_bind m (λ x, k))
  (at level 10, x name, m at level 100, k at level 200) : py_scope.
Notation "m ';!' k" := (U_bind m (λ _, k))
  (at level 100, k at level 200, right associativity) : py_scope.

Section AppMethods.
Context `{Externals} `{MenuExternals}.

(** Run a method of the part modelled in [State]. *)
Definition lift {A} (m : M A) : U A :=
  λ s, let (o, c) := m (core s) in
       (o, {| core := c; recentFilesMenu := recentFilesMenu s;
              conf_recent_changes := conf_recent_changes s;
              daemon_to_local_path := daemon_to_local_path s;
              conf_update_notification_last := conf_update_notification_last s;
              time_time := time_time s |}).

Definition get_app : U AppState := λ s, (Ret s, s).

Definition set_recentFilesMenu (v : option (list RecentAction))
  : U unit :=
  λ s, (Ret tt, {| core := core s; recentFilesMenu := v;
                   conf_recent_changes := conf_recent_changes s;
                   daemon_to_local_path := daemon_to_local_path s;
                   conf_update_notification_last :=
                     conf_update_notification_last s;
                   time_time := time_time s |}).

(** [self.mdbx.set_conf("app", "update_notification_last", v)] *)
Definition set_conf_update_notification_last (v : pyfloat) : U unit :=
  lift (the_proxy "set_conf") ;!
  λ s, (Ret tt, {| core := core s; recentFilesMenu := recentFilesMenu s;
                   conf_recent_changes := conf_recent_changes s;
                   daemon_to_local_path := daemon_to_local_path s;
                   conf_update_notification_last := v;
                   time_time := time_time s |}).

(** [for x in xs: body(x)] *)
Fixpoint for_each {A} (xs : list A) (body : A → U unit) : U unit :=
  match xs with
  | [] => U_ret tt
  | x :: xs' => body x ;! for_each xs' body
  end.

(** [self.recentFilesMenu.clear()] *)
Definition recentFilesMenu_clear : U unit :=
  let! s := get_app in
  match recentFilesMenu s with
  | Some _ => set_recentFilesMenu (Some [])
  | None => U_raise (AttributeError "recentFilesMenu")
  end.

(** [action = self.recentFilesMenu.addAction(text)] followed by
    [action.triggered.connect(lambda _, lp=local_path: click.launch(lp,
    locate=True))]: the path is bound when the entry is made. *)
Definition recentFilesMenu_addAction (text : string) (local_path : string)
  : U unit :=
  let! s := get_app in
  match recentFilesMenu s with
  | Some entries =>
      set_recentFilesMenu
        (Some (entries ++ [{| recent_action := {| text := text;
                                                  enabled := true |};
                              launches := local_path |}]))
  | None => U_raise (AttributeError "recentFilesMenu")
  end.

Definition update_recent_files : U unit :=
  recentFilesMenu_clear ;!
  let! recent_changes :=
    (lift (the_proxy "get_conf") ;!
     let! s := get_app in U_ret (conf_recent_changes s)) in
  for_each (reverse recent_changes) (λ dbx_path,
    let file_name := os_path_basename dbx_path in
    let truncated_name := elide_string_right file_name in
    let! local_path :=
      (lift (the_proxy "to_local_path") ;!
       let! s := get_app in U_ret (daemon_to_local_path s dbx_path)) in
    recentFilesMenu_addAction truncated_name local_path).

(** Truth value of [res["error"]]: [None] and the empty string are false. *)
Definition error_truthy (e : option string) : bool :=
  match e with
  | Some msg => negb (bool_decide (msg = EmptyString))
  | None => false
  end.

Definition _notify_updates (res : UpdateResult) (user_requested : bool)
  : U unit :=
  if user_requested && error_truthy (upd_error res)
  then
    lift (call (UserDialog_exec "Could not check for updates"
                  (default EmptyString (upd_error res)) None))
  else if update_available res
  then
    (if negb user_requested
     then let! s := get_app in
          set_conf_update_notification_last (time_time s)
     else U_ret tt) ;!
    let url_r := "https://github.com/samschott/maestral-dropbox/releases" in
    let message :=
      "Maestral v" +:+ latest_release res
      +:+ " is available. Please use your package manager to "
      +:+ "update Maestral or go to the <a href=" +:+ dquote +:+ url_r
      +:+ dquote +:+ "><span "
      +:+ "style=" +:+ dquote
      +:+ "text-decoration: underline; color:#2874e1;" +:+ dquote
      +:+ ">releases</span></a> "
      +:+ "page to download the new version. "
      +:+ "<div style=" +:+ dquote +:+ "height:5px;font-size:5px;" +:+ dquote
      +:+ ">&nbsp;<br></div>"
      +:+ "<b>Release notes:</b>" in
    let list_style :=
      "<ul style=" +:+ dquote
      +:+ "margin-top: 0px; margin-bottom: 0px; margin-left: -20px; margin-right: 0px; -qt-list-indent: 1;"
      +:+ dquote +:+ ">" in
    let styled_release_notes :=
      str_replace "<ul>" list_style (release_notes res) in
    lift (call (UserDialog_exec "Update available" message
                  (Some styled_release_notes)))
  else if user_requested && negb (update_available res)
  then
    let message :=
      "Maestral v" +:+ latest_release res
      +:+ " is the newest version available." in
    lift (call (UserDialog_exec "You’re up-to-date!" message None))
  else U_ret tt.

End AppMethods.

(** ** Running a method *)

Section Vocabulary.
Context `{Externals}.

(** Replace the GUI object of a state. *)
Definition with_self (me : MaestralGuiApp) (s : State) : State :=
  {| self := me; daemon := daemon s; host := host s; trace := trace s |}.

(** Append calls to the trace of a state. *)
Definition with_calls (evs : list Event) (s : State) : State :=
  {| self := self s; daemon := daemon s; host := host s;
     trace := trace s ++ evs |}.

(** The daemon queue read by [get_maestral_errors]. *)
Definition with_maestral_errors (errs : list ErrorDict) (s : State) : State :=
  {| self := self s; daemon := set_maestral_errors errs (daemon s);
     host := host s; trace := trace s |}.

(** The calls a computation adds to the trace. *)
Definition calls_of {A} (m : M A) (s : State) : list Event :=
  drop (length (trace s)) (trace (m s).2).

(** The colour [load_tray_icons] asks for. *)
Definition tray_color (me : MaestralGuiApp) : option string :=
  if contextMenuVisible me && bool_decide (platform_system = "Darwin")
  then Some "light" else None.

(** [self.icons] is always a result of [load_tray_icons]: it is assigned in
    [__init__] and in [reload_icons] only. *)
Definition icons_loaded (me : MaestralGuiApp) : Prop :=
  ∃ me0, icons me = load_tray_icons me0.

(** The menu entries and windows [setup_ui_linked] creates are there. *)
Definition ui_linked (me : MaestralGuiApp) : Prop :=
  is_Some (pauseAction me) ∧ is_Some (syncIssuesAction me) ∧
  is_Some (accountUsageAction me) ∧ is_Some (statusAction me).

(** [update_error] takes the relink path for this error. *)
Definition relinks (err : ErrorDict) : bool :=
  bool_decide (err_type err ∈ ["DropboxAuthError"; "TokenExpiredError"]).

(** The GUI object after the common part of [_stop_and_exec_error_dialog]
    and [_stop_and_exec_relink_dialog]: the icon set to [SYNC_ERROR] and
    the pause entry, when there is one, relabelled and, for a relink,
    disabled. *)
Definition halted (disable : bool) (fallback : QIcon) (me : MaestralGuiApp)
  : MaestralGuiApp :=
  set_pauseAction
    ((λ a, {| text := "Start Syncing";
              enabled := if disable then false else enabled a |})
     <$> pauseAction me)
    (set_tray_icon (Some (default fallback (icons me !! SYNC_ERROR)))
       (set__current_icon SYNC_ERROR me)).

(** The calls other than [clear_maestral_errors]. *)
Definition not_clear (e : Event) : Prop := e ≠ clear_maestral_errors.

(** The last entry of [errs] is none of the kinds [update_error] names. *)
Definition unclassified (ty : string) : Prop :=
  ty ∉ ["RevFileError"; "BadInputError"; "CursorResetError";
        "DropboxDeletedError"; "DropboxAuthError"; "TokenExpiredError"].

(** [quit] reaches the branch that stops the daemon process. *)
Definition quit_stops_daemon (stop_daemon : option bool)
    (me : MaestralGuiApp) : bool :=
  default (_started me) stop_daemon
  && bool_decide (is_Some (mdbx me))
  && negb IS_MACOS_BUNDLE.

(** The launch [_get_or_start_maestral_daemon] makes when no pid is found. *)
Definition launch_call : Event :=
  if IS_MACOS_BUNDLE
  then start_maestral_daemon_thread CONFIG_NAME
  else start_maestral_daemon_process CONFIG_NAME.

(** Every run of [m] takes a state to one related to it by [Q], whether it
    returns or raises. *)
Definition post {A} (Q : relation State) (m : M A) : Prop :=
  ∀ s, Q s (m s).2.

(** Only calls satisfying [P] were added to the trace, and the daemon and
    the host are as they were. *)
Definition adds (P : Event → Prop) : relation State :=
  λ s s', ∃ evs, trace s' = trace s ++ evs ∧ Forall P evs
                 ∧ daemon s' = daemon s ∧ host s' = host s.

(** A property of the GUI object that held before holds after. *)
Definition keeps (I : MaestralGuiApp → Prop) : relation State :=
  λ s s', I (self s) → I (self s').

(** What the timer callbacks rely on once [load_maestral] has run. *)
Definition linked (me : MaestralGuiApp) : Prop :=
  is_Some (mdbx me) ∧ icons_loaded me ∧ ui_linked me.

End Vocabulary.

(** ** More vocabulary *)

Section MoreVocabulary.
Context `{Externals}.

(** The icon table and the icon shown are what [reload_icons] would make
    them: the table is the one for the current visibility of the menu, and
    the tray shows the entry of [_current_icon], or of [SYNCING] when there
    is none. *)
Definition settled (me : MaestralGuiApp) : Prop :=
  icons me = load_tray_icons me
  ∧ ∃ fallback, icons me !! SYNCING = Some fallback
      ∧ tray_icon me = Some (default fallback (icons me !! _current_icon me)).

(** The resource [setIcon(key)] ends up showing with the table of
    [load_tray_icons]: the one listed for [key], or else the one listed for
    [SYNCING]. *)
Definition shown_resource (key : string) : option string :=
  match icon_mapping !! key with
  | Some name => Some name
  | None => icon_mapping !! SYNCING
  end.

(** The one call [update_status] can make. *)
Definition is_reload (e : Event) : Prop := e = sync_issues_window_reload.

Definition is_Popen (e : Event) : bool :=
  match e with Popen _ => true | _ => false end.

(** A modal dialog: [UserDialog.exec_()] or [RelinkDialog.exec_()]. *)
Definition is_dialog (e : Event) : bool :=
  match e with
  | UserDialog_exec _ _ _ | RelinkDialog_exec _ => true
  | _ => false
  end.

(** [platform.system()] is one of the two names [restart] knows. *)
Definition relaunch_platform : bool :=
  bool_decide (platform_system = "Darwin")
  || bool_decide (platform_system = "Linux").

End MoreVocabulary.

Section AppVocabulary.
Context `{Externals} `{MenuExternals}.

(** Replace the part of an [AppState] modelled in [State]. *)
Definition with_core (c : State) (a : AppState) : AppState :=
  {| core := c; recentFilesMenu := recentFilesMenu a;
     conf_recent_changes := conf_recent_changes a;
     daemon_to_local_path := daemon_to_local_path a;
     conf_update_notification_last := conf_update_notification_last a;
     time_time := time_time a |}.

Definition with_recentFilesMenu (v : option (list RecentAction))
    (a : AppState) : AppState :=
  {| core := core a; recentFilesMenu := v;
     conf_recent_changes := conf_recent_changes a;
     daemon_to_local_path := daemon_to_local_path a;
     conf_update_notification_last := conf_update_notification_last a;
     time_time := time_time a |}.

Definition with_update_notification_last (v : pyfloat) (a : AppState)
  : AppState :=
  {| core := core a; recentFilesMenu := recentFilesMenu a;
     conf_recent_changes := conf_recent_changes a;
     daemon_to_local_path := daemon_to_local_path a;
     conf_update_notification_last := v;
     time_time := time_time a |}.

(** The entry [update_recent_files] makes for one changed path. *)
Definition recent_entry (a : AppState) (dbx_path : string) : RecentAction :=
  {| recent_action :=
       {| text := elide_string_right (os_path_basename dbx_path);
          enabled := true |};
     launches := daemon_to_local_path a dbx_path |}.

End AppVocabulary.

(** ** Example hosts and states *)

Module Examples.

(** A Linux desktop: the daemon runs as a process of its own. *)
Definition linux_host : Externals := {|
  QIcon := string * option string;
  get_system_tray_icon := pair;
  elide_string := id;
  IDLE := "Up to date";
  SYNCING := "Syncing...";
  PAUSED := "Syncing paused";
  STOPPED := "Syncing stopped";
  DISCONNECTED := "Connecting...";
  SYNC_ERROR := "Sync error";
  IS_MACOS_BUNDLE := false;
  platform_system := "Linux";
  sys_MEIPASS := EmptyString;
  env_MAESTRAL_CONFIG := None;
|}.

(** The macOS app bundle: the daemon runs as a thread of the GUI process. *)
Definition macos_bundle : Externals := {|
  QIcon := string * option string;
  get_system_tray_icon := pair;
  elide_string := id;
  IDLE := "Up to date";
  SYNCING := "Syncing...";
  PAUSED := "Syncing paused";
  STOPPED := "Syncing stopped";
  DISCONNECTED := "Connecting...";
  SYNC_ERROR := "Sync error";
  IS_MACOS_BUNDLE := true;
  platform_system := "Darwin";
  sys_MEIPASS := "/Applications/Maestral.app/Contents/MacOS";
  env_MAESTRAL_CONFIG := None;
|}.

(** The proxy for the default configuration name. *)
Definition the_proxy_handle : Proxy := {| proxy_config := "maestral" |}.

(** The attributes after [setup_ui_linked], connected to a daemon the GUI
    started itself, before the icon table is filled in. *)
Definition blank_linked (E : Externals) : @MaestralGuiApp E := {|
  mdbx := Some the_proxy_handle;
  _started := true;
  _context_menu_visible := false;
  icons := ∅;
  _current_icon := @IDLE E;
  _n_errors := None;
  _status := None;
  pauseAction := Some {| text := "Pause Syncing"; enabled := true |};
  syncIssuesAction :=
    Some {| text := "Show Sync Issues..."; enabled := true |};
  accountUsageAction := Some {| text := "1.2 GB used"; enabled := false |};
  statusAction := Some {| text := @IDLE E; enabled := false |};
  tray_icon := Some (@get_system_tray_icon E "idle" None);
  tray_toolTip := None;
  update_ui_timer_active := true |}.

Definition linked_app (E : Externals) : @MaestralGuiApp E :=
  set_icons (load_tray_icons (blank_linked E)) (blank_linked E).

(** The attributes inside [load_maestral], before [self.mdbx] is
    assigned. *)
Definition blank_unlinked (E : Externals) : @MaestralGuiApp E := {|
  mdbx := None;
  _started := false;
  _context_menu_visible := false;
  icons := ∅;
  _current_icon := @DISCONNECTED E;
  _n_errors := None;
  _status := None;
  pauseAction := None;
  syncIssuesAction := None;
  accountUsageAction := None;
  statusAction := Some {| text := "Setting up..."; enabled := false |};
  tray_icon := Some (@get_system_tray_icon E "disconnected" None);
  tray_toolTip := None;
  update_ui_timer_active := true |}.

Definition unlinked_app (E : Externals) : @MaestralGuiApp E :=
  set_icons (load_tray_icons (blank_unlinked E)) (blank_unlinked E).

Definition RevFileError : ErrorDict := {|
  err_type := "RevFileError";
  err_title := "Could not save the revision index";
  err_message := "Insufficient permissions.";
  err_traceback := None |}.

Definition CursorResetError : ErrorDict := {|
  err_type := "CursorResetError";
  err_title := "Cursor reset";
  err_message := "Dropbox has reset its sync state.";
  err_traceback := None |}.

Definition DropboxDeletedError : ErrorDict := {|
  err_type := "DropboxDeletedError";
  err_title := "Dropbox folder has been moved or deleted";
  err_message := "Please restart to set up a new folder.";
  err_traceback := None |}.

Definition TokenExpiredError : ErrorDict := {|
  err_type := "TokenExpiredError";
  err_title := "Authentication failed";
  err_message := "The access token has expired.";
  err_traceback := None |}.

Definition ConnectionResetError : ErrorDict := {|
  err_type := "ConnectionResetError";
  err_title := "Unexpected error";
  err_message := "Connection reset by peer";
  err_traceback := Some "Traceback (most recent call last): ..." |}.

(** A daemon that is syncing, with one sync issue and the given queue of
    errors. *)
Definition syncing_daemon (errs : list ErrorDict) : Daemon := {|
  maestral_errors := errs;
  sync_errors := [RevFileError];
  status := "Syncing...";
  paused := false;
  conf_account_usage := "1.3 GB used" |}.

Definition running (E : Externals) (errs : list ErrorDict) : @State E := {|
  self := linked_app E;
  daemon := syncing_daemon errs;
  host := {| maestral_pid := Some 4711%Z; start_result := true;
             os_getpid := 4242%Z |};
  trace := [] |}.

(** At start-up; [pid] is what the registry answers and [ok] what a launch
    reports. *)
Definition starting (E : Externals) (pid : option Z) (ok : bool)
  : @State E := {|
  self := unlinked_app E;
  daemon := syncing_daemon [];
  host := {| maestral_pid := pid; start_result := ok; os_getpid := 4242%Z |};
  trace := [] |}.

(** The state [running E []] after one tick of [update_status]. *)
Definition reconciled (E : Externals) : @State E :=
  (update_status (running E [])).2.

(** The state in which [_get_or_start_maestral_daemon] calls [quit()] after
    a launch that reported failure. *)
Definition launch_failed (E : Externals) : @State E :=
  with_self (set__started true (unlinked_app E)) (starting E None false).

End Examples.

Module MoreExamples.
Import Examples.

(** A linked GUI whose proxy is there but whose sync-issues entry is
    not. *)
Definition half_built (E : Externals) (errs : list ErrorDict) : @State E :=
  with_self (set_syncIssuesAction None (linked_app E)) (running E errs).


(** A state as [reload_icons] leaves it. *)
Definition settled_running (E : Externals) : @State E :=
  (reload_icons (running E [])).2.

(** An icon table that has an entry for "Up to date" and none for
    "Syncing...". *)
Definition without_SYNCING : @State linux_host :=
  with_self
    (set_icons {[ "Up to date" := ("idle", None) ]} (linked_app linux_host))
    (running linux_host []).

Definition BadInputError : ErrorDict := {|
  err_type := "BadInputError";
  err_title := "Bad input";
  err_message := "The path is malformed.";
  err_traceback := Some "Traceback (most recent call last): ..." |}.

Definition DropboxAuthError : ErrorDict := {|
  err_type := "DropboxAuthError";
  err_title := "Authentication failed";
  err_message := "The access has been revoked.";
  err_traceback := None |}.

(** Times as seconds since the epoch; the elided name keeps at most
    twelve characters. *)
Definition menu_host : MenuExternals := {|
  pyfloat := Z;
  elide_string_right := λ s, String.substring 0 12 s;
|}.

Definition app_state (E : Externals) (menu : option (list RecentAction))
    (recent : list string) : @AppState E menu_host :=
  @Build_AppState E menu_host
    (running E []) menu recent
    (λ dbx_path, "/home/user/Dropbox" +:+ dbx_path)
    1572000000%Z 1572600000%Z.

Definition stale_entry : RecentAction :=
  {| recent_action := {| text := "old.txt"; enabled := true |};
     launches := "/home/user/Dropbox/old.txt" |}.

Definition update_found : UpdateResult := {|
  upd_error := None;
  update_available := true;
  latest_release := "0.5.0";
  release_notes := "<ul><li>Faster start-up</li></ul>" |}.

Definition check_failed : UpdateResult := {|
  upd_error := Some "Unable to connect to the update server.";
  update_available := false;
  latest_release := "0.4.4";
  release_notes := EmptyString |}.

End MoreExamples.

(** ** Properties *)

Section Theory.
Context `{Externals}.

Ltac unfold_prims :=
  cbv [bind ret raise get_self modify_self get_daemon modify_daemon get_host
       call the_proxy proxy_get proxy_call on_action getitem] in *.

Lemma with_self_id s : with_self (self s) s = s.
Proof. by destruct s. Qed.

Lemma with_calls_nil s : with_calls [] s = s.
Proof. destruct s; unfold with_calls; simpl. by rewrite app_nil_r. Qed.

Lemma calls_of_app {A} (m : M A) s evs :
  trace (m s).2 = trace s ++ evs → calls_of m s = evs.
Proof. intros E. unfold calls_of. rewrite E. by rewrite drop_app_length. Qed.

(** *** The icon table *)

Lemma load_tray_icons_fmap me :
  load_tray_icons me
  = (λ name, get_system_tray_icon name (tray_color me)) <$> icon_mapping.
Proof.
  unfold load_tray_icons. fold (tray_color me).
  apply (map_fold_weak_ind (λ r m,
    r = (λ name, get_system_tray_icon name (tray_color me)) <$> m)).
  - by rewrite fmap_empty.
  - intros i x m r _ ->. by rewrite fmap_insert.
Qed.

Lemma load_tray_icons_lookup me key :
  load_tray_icons me !! key
  = (λ name, get_system_tray_icon name (tray_color me)) <$> icon_mapping !! key.
Proof. by rewrite load_tray_icons_fmap, lookup_fmap. Qed.

Lemma icon_mapping_SYNCING : is_Some (icon_mapping !! SYNCING).
Proof.
  unfold icon_mapping. rewrite !lookup_insert.
  repeat case_decide; eauto; congruence.
Qed.

Lemma icon_mapping_SYNC_ERROR : icon_mapping !! SYNC_ERROR = Some "error".
Proof. unfold icon_mapping. by rewrite lookup_insert_eq. Qed.

Lemma icons_loaded_SYNCING me : icons_loaded me → is_Some (icons me !! SYNCING).
Proof.
  intros [me0 ->]. rewrite load_tray_icons_lookup.
  destruct icon_mapping_SYNCING as [x ->]. simpl. eauto.
Qed.

Lemma icons_loaded_SYNC_ERROR me :
  icons_loaded me →
  ∃ color, icons me !! SYNC_ERROR = Some (get_system_tray_icon "error" color).
Proof.
  intros [me0 ->]. exists (tray_color me0).
  by rewrite load_tray_icons_lookup, icon_mapping_SYNC_ERROR.
Qed.

(** The keys of the table do not depend on the colour. *)
Lemma load_tray_icons_None me me' key :
  load_tray_icons me !! key = None → load_tray_icons me' !! key = None.
Proof.
  rewrite !load_tray_icons_lookup. by destruct (icon_mapping !! key).
Qed.

(** *** [setIcon] *)

Lemma setIcon_run s icon_name fallback :
  icons (self s) !! SYNCING = Some fallback →
  setIcon icon_name s
  = (Ret tt,
     with_self (set_tray_icon
                  (Some (default fallback (icons (self s) !! icon_name)))
                  (set__current_icon icon_name (self s))) s).
Proof.
  intros E. unfold setIcon. unfold_prims. by rewrite E.
Qed.

Lemma setIcon_KeyError s icon_name :
  icons (self s) !! SYNCING = None →
  setIcon icon_name s = (Raise (KeyError SYNCING), s).
Proof.
  intros E. unfold setIcon. unfold_prims. by rewrite E.
Qed.

(** C10.  When [self.icons] is a table built by [load_tray_icons] and
    [icon_name] is not one of its keys, [setIcon(icon_name)] returns
    normally, shows the icon stored under [SYNCING], and records
    [icon_name] in [_current_icon]; a following [reload_icons] returns
    normally, looks that same name up again in the fresh table, and leaves
    it in [_current_icon]. *)
Theorem setIcon_unknown_key_fallback s icon_name :
  icons_loaded (self s) →
  icons (self s) !! icon_name = None →
  ∃ syncing_icon,
    icons (self s) !! SYNCING = Some syncing_icon ∧
    setIcon icon_name s
    = (Ret tt, with_self (set_tray_icon (Some syncing_icon)
                            (set__current_icon icon_name (self s))) s) ∧
    let s' := (setIcon icon_name s).2 in
    (reload_icons s').1 = Ret tt ∧
    _current_icon (self (reload_icons s').2) = icon_name ∧
    tray_icon (self (reload_icons s').2)
    = load_tray_icons (self s') !! SYNCING.
Proof.
  intros Hl Hk. destruct (icons_loaded_SYNCING _ Hl) as [ic Hic].
  exists ic. split; [done|].
  rewrite (setIcon_run _ _ _ Hic), Hk. simpl. split; [done|].
  set (me' := set_tray_icon _ _).
  assert (Hs : is_Some (load_tray_icons me' !! SYNCING)).
  { apply (icons_loaded_SYNCING (set_icons (load_tray_icons me') me')).
    by exists me'. }
  destruct Hs as [ic' Hic'].
  assert (Hk' : load_tray_icons me' !! icon_name = None).
  { destruct Hl as [me0 Hl]. rewrite Hl in Hk.
    by apply (load_tray_icons_None me0). }
  unfold reload_icons. unfold_prims. simpl.
  erewrite setIcon_run by (simpl; exact Hic').
  simpl. rewrite Hk'. simpl. by rewrite Hic'.
Qed.

(** *** [quit] and [restart] *)

Lemma quit_run stop_daemon s :
  quit stop_daemon s
  = (Raise (SystemExit 0),
     with_calls
       ((if quit_stops_daemon stop_daemon (self s)
         then [pyroRelease; stop_maestral_daemon_process CONFIG_NAME]
         else []) ++ [deleteLater; QCoreApplication_quit])
       (with_self (set_update_ui_timer_active false (self s)) s)).
Proof.
  unfold quit, quit_stops_daemon, with_calls, with_self. unfold_prims. simpl.
  destruct (default (_started (self s)) stop_daemon); simpl;
    [|by rewrite <- !(assoc_L (++))].
  case_bool_decide as Hm; simpl; [|by rewrite <- !(assoc_L (++))].
  destruct Hm as [p Hm].
  destruct IS_MACOS_BUNDLE; simpl; rewrite ?Hm; simpl;
    by rewrite <- !(assoc_L (++)).
Qed.

Lemma quit_calls stop_daemon s :
  calls_of (quit stop_daemon) s
  = (if quit_stops_daemon stop_daemon (self s)
     then [pyroRelease; stop_maestral_daemon_process CONFIG_NAME]
     else []) ++ [deleteLater; QCoreApplication_quit].
Proof. apply calls_of_app. by rewrite quit_run. Qed.

Lemma quit_calls_stop_iff stop_daemon s :
  stop_maestral_daemon_process CONFIG_NAME ∈ calls_of (quit stop_daemon) s
  ↔ quit_stops_daemon stop_daemon (self s) = true.
Proof.
  rewrite quit_calls. destruct (quit_stops_daemon _ _); simpl.
  - split; [done|]. intros _. apply elem_of_cons. right. apply elem_of_cons.
    by left.
  - split; [|done]. intros Hin. apply elem_of_cons in Hin as [?|Hin]; [done|].
    apply elem_of_cons in Hin as [?|Hin]; [done|]. by apply elem_of_nil in Hin.
Qed.

(** C3, as the code has it.  [quit()] without [stop_daemon] calls
    [stop_maestral_daemon_process(CONFIG_NAME)] exactly when [_started] is
    true, [self.mdbx] holds a proxy, and the daemon does not run inside the
    GUI process ([IS_MACOS_BUNDLE] is false).  In every case the timer is
    stopped and the call ends in [sys.exit(0)]. *)
Theorem quit_default_stops_daemon_iff s :
  (stop_maestral_daemon_process CONFIG_NAME ∈ calls_of (quit None) s
   ↔ _started (self s) = true ∧ is_Some (mdbx (self s))
     ∧ IS_MACOS_BUNDLE = false)
  ∧ (quit None s).1 = Raise (SystemExit 0)
  ∧ update_ui_timer_active (self (quit None s).2) = false.
Proof.
  split; [|by rewrite quit_run].
  rewrite quit_calls_stop_iff. unfold quit_stops_daemon. simpl.
  rewrite !andb_true_iff, bool_decide_eq_true, negb_true_iff. tauto.
Qed.

Lemma restart_run s :
  ∃ cmds, restart s = quit (Some true) (with_calls (Popen <$> cmds) s).
Proof.
  unfold restart. unfold_prims.
  destruct IS_MACOS_BUNDLE;
    destruct (bool_decide (platform_system = "Darwin"));
    try destruct (bool_decide (platform_system = "Linux")); simpl.
  all: try (eexists [_; _]; unfold with_calls; simpl;
            rewrite <- (assoc_L (++)); reflexivity).
  all: try (eexists [_]; unfold with_calls; simpl; reflexivity).
  all: exists []; by rewrite with_calls_nil.
Qed.



(** *** The resolver *)

(** C7, as the code has it.  With a pid found for [CONFIG_NAME] the
    resolver launches nothing, sets [_started] to false and returns the
    proxy for [CONFIG_NAME].  With none found it launches a daemon (a
    thread in the macOS bundle, a process otherwise) and sets [_started] to
    true; it then returns the proxy when the launch did not report failure,
    and when it did it shows a blocking notice and runs [quit()], so that
    the call ends in [sys.exit(0)] and returns nothing. *)
Theorem resolver_outcomes s :
  _get_or_start_maestral_daemon s
  = if pid_truthy (maestral_pid (host s))
    then (Ret {| proxy_config := CONFIG_NAME |},
          with_calls [get_maestral_daemon_proxy CONFIG_NAME]
            (with_self (set__started false (self s)) s))
    else if start_result (host s)
    then (Ret {| proxy_config := CONFIG_NAME |},
          with_calls [launch_call; get_maestral_daemon_proxy CONFIG_NAME]
            (with_self (set__started true (self s)) s))
    else (Raise (SystemExit 0),
          (quit None
             (with_calls
                [launch_call;
                 UserDialog_exec "Could not start Maestral"
                   ("Could not start or connect to sync daemon. Please try again and "
                    +:+ "contact the developer if this issue persists.")
                   None]
                (with_self (set__started true (self s)) s))).2).
Proof.
  unfold _get_or_start_maestral_daemon, launch_call.
  destruct (pid_truthy (maestral_pid (host s))) eqn:Hp.
  - unfold_prims. rewrite Hp. reflexivity.
  - destruct (start_result (host s)) eqn:Hr.
    + unfold_prims. rewrite Hp.
      destruct IS_MACOS_BUNDLE; simpl; rewrite Hr; simpl;
        unfold with_calls; simpl; by rewrite <- (assoc_L (++)).
    + unfold bind at 1. unfold bind at 1.
      unfold get_host at 1. cbv [ret]. rewrite Hp.
      set (s1 := with_calls _ _).
      assert (Hq : (quit None s1).1 = Raise (SystemExit 0))
        by (by rewrite quit_run).
      destruct (quit None s1) as [o s2] eqn:Eq. simpl in Hq. subst o.
      unfold bind at 1. unfold bind at 1. unfold bind at 1.
      destruct IS_MACOS_BUNDLE; unfold_prims; simpl; rewrite Hr; simpl.
      all: match goal with
           | |- context [quit None ?s0] =>
               replace s0 with s1
                 by (unfold s1, with_calls; simpl;
                     by rewrite <- (assoc_L (++)))
           end.
      all: by rewrite Eq.
Qed.

(** *** What a method leaves in place *)

Section Post.
Context (Q : relation State) `{!PreOrder Q}.

Lemma post_pure {A} (m : M A) : (∀ s, (m s).2 = s) → post Q m.
Proof. intros E s. by rewrite E. Qed.

Lemma post_ret {A} (a : A) : post Q (ret a).
Proof. by apply post_pure. Qed.

Lemma post_raise {A} e : post Q (raise (A:=A) e).
Proof. by apply post_pure. Qed.

Lemma post_get_self : post Q get_self.
Proof. by apply post_pure. Qed.

Lemma post_get_daemon : post Q get_daemon.
Proof. by apply post_pure. Qed.

Lemma post_get_host : post Q get_host.
Proof. by apply post_pure. Qed.

Lemma post_bind {A B} (m : M A) (k : A → M B) :
  post Q m → (∀ a, post Q (k a)) → post Q (bind m k).
Proof.
  intros Hm Hk s. unfold bind. specialize (Hm s).
  destruct (m s) as [[a|e] s1]; simpl in *; [|done].
  by etrans; [|apply Hk].
Qed.

End Post.

#[local] Instance adds_preorder P : PreOrder (adds P).
Proof.
  split.
  - intros s. exists []. by rewrite app_nil_r.
  - intros s1 s2 s3 (e1 & Ht1 & HP1 & Hd1 & Hh1) (e2 & Ht2 & HP2 & Hd2 & Hh2).
    exists (e1 ++ e2). rewrite Ht2, Ht1, Hd2, Hh2.
    repeat split; auto using Forall_app_2. by rewrite (assoc_L (++)).
Qed.

#[local] Instance keeps_preorder I : PreOrder (keeps I).
Proof. split; unfold keeps; [by intros s|intros s1 s2 s3; tauto]. Qed.

Lemma adds_modify_self P f : post (adds P) (modify_self f).
Proof. intros s. exists []. simpl. by rewrite app_nil_r. Qed.

Lemma adds_call (P : Event → Prop) e : P e → post (adds P) (call e).
Proof. intros He s. exists [e]. simpl. repeat split; auto. Qed.

Lemma keeps_modify_self (I : MaestralGuiApp → Prop) f :
  (∀ me, I me → I (f me)) → post (keeps I) (modify_self f).
Proof. intros Hf s. unfold keeps. simpl. apply Hf. Qed.

Lemma keeps_modify_daemon I f : post (keeps I) (modify_daemon f).
Proof. intros s. unfold keeps. simpl. tauto. Qed.

Lemma keeps_call I e : post (keeps I) (call e).
Proof. intros s. unfold keeps. simpl. tauto. Qed.

(** Assignments that leave the proxy, the icon table and the menu entries
    in place. *)
Ltac solve_linked :=
  match goal with
  | Hl : linked _ |- linked _ =>
      destruct Hl as (? & ? & ? & ? & ? & ?);
      unfold linked, ui_linked, icons_loaded in *; simpl;
      repeat split; eauto
  end.

Create HintDb calls discriminated.
Hint Resolve post_ret post_raise post_get_self post_get_daemon post_get_host
  adds_modify_self adds_call keeps_modify_self keeps_modify_daemon
  keeps_call : calls.
Hint Extern 1 (not_clear _) => unfold not_clear; discriminate : calls.
Hint Extern 1 (linked _) => solve_linked : calls.
Hint Extern 0 (PreOrder _) => apply _ : calls.

(** Walk through a method: binds, conditionals and matches. *)
Ltac walk :=
  repeat match goal with
  | |- post _ (bind _ _) => apply post_bind; [apply _ ..| |intros ?]
  | |- post _ (let _ := _ in _) => progress cbv zeta
  | |- post _ (if ?b then _ else _) => destruct b
  | |- post _ (match ?x with _ => _ end) => destruct x
  | |- post _ _ => solve [auto with calls]
  end.

Section PostMethods.
Context (Q : relation State) `{!PreOrder Q}.

Lemma post_the_proxy attr : post Q (the_proxy attr).
Proof. unfold the_proxy. walk. Qed.

Lemma post_proxy_get {A} attr (f : Daemon → A) : post Q (proxy_get attr f).
Proof. unfold proxy_get. pose proof post_the_proxy. walk. Qed.

Lemma post_getitem {V} (d : gmap string V) key : post Q (getitem d key).
Proof. unfold getitem. walk. Qed.

End PostMethods.

Hint Resolve post_the_proxy post_proxy_get post_getitem : calls.

Lemma adds_proxy_call (P : Event → Prop) attr e :
  P e → post (adds P) (proxy_call attr e).
Proof. intros. unfold proxy_call. walk. Qed.

Lemma keeps_proxy_call I attr e : post (keeps I) (proxy_call attr e).
Proof. unfold proxy_call. walk. Qed.

Lemma adds_on_action P attr get set f :
  post (adds P) (on_action attr get set f).
Proof. unfold on_action. walk. Qed.

Lemma keeps_on_action (I : MaestralGuiApp → Prop) attr get set f :
  (∀ a me, I me → I (set (Some a) me)) →
  post (keeps I) (on_action attr get set f).
Proof. intros Hs. unfold on_action. walk. Qed.

Hint Resolve adds_proxy_call keeps_proxy_call adds_on_action
  keeps_on_action : calls.

Lemma adds_setIcon P icon_name : post (adds P) (setIcon icon_name).
Proof. unfold setIcon. walk. Qed.

Lemma keeps_linked_setIcon icon_name : post (keeps linked) (setIcon icon_name).
Proof. unfold setIcon. walk. Qed.

Lemma adds_setToolTip P text : post (adds P) (setToolTip text).
Proof. unfold setToolTip. walk. Qed.

Lemma keeps_linked_setToolTip text : post (keeps linked) (setToolTip text).
Proof. unfold setToolTip. walk. Qed.

Hint Resolve adds_setIcon keeps_linked_setIcon adds_setToolTip
  keeps_linked_setToolTip : calls.

Lemma adds_quit stop_daemon : post (adds not_clear) (quit stop_daemon).
Proof. unfold quit. walk. Qed.

Lemma keeps_linked_quit stop_daemon : post (keeps linked) (quit stop_daemon).
Proof. unfold quit. walk. Qed.

Hint Resolve adds_quit keeps_linked_quit : calls.

Lemma adds_restart : post (adds not_clear) restart.
Proof. unfold restart. walk. Qed.

Lemma keeps_linked_restart : post (keeps linked) restart.
Proof. unfold restart. walk. Qed.

Lemma adds_relink_dialog reason :
  post (adds not_clear) (_stop_and_exec_relink_dialog reason).
Proof. unfold _stop_and_exec_relink_dialog. walk. Qed.

Lemma keeps_linked_relink_dialog reason :
  post (keeps linked) (_stop_and_exec_relink_dialog reason).
Proof. unfold _stop_and_exec_relink_dialog. walk. Qed.

Lemma adds_error_dialog title message exc_info :
  post (adds not_clear) (_stop_and_exec_error_dialog title message exc_info).
Proof. unfold _stop_and_exec_error_dialog. walk. Qed.

Lemma keeps_linked_error_dialog title message exc_info :
  post (keeps linked) (_stop_and_exec_error_dialog title message exc_info).
Proof. unfold _stop_and_exec_error_dialog. walk. Qed.

Hint Resolve adds_restart keeps_linked_restart adds_relink_dialog
  keeps_linked_relink_dialog adds_error_dialog
  keeps_linked_error_dialog : calls.

Lemma adds_dispatch_error err : post (adds not_clear) (dispatch_error err).
Proof. unfold dispatch_error. walk. Qed.

Lemma keeps_linked_dispatch_error err :
  post (keeps linked) (dispatch_error err).
Proof. unfold dispatch_error. walk. Qed.

Hint Resolve keeps_linked_dispatch_error : calls.

(** The proxy, the loaded icon table and the menu entries survive every
    timer callback and every reload of the icons, so what the properties
    below assume of one tick still holds at the next. *)
Lemma keeps_linked_update_error : post (keeps linked) update_error.
Proof. unfold update_error. walk. Qed.

Lemma keeps_linked_update_status : post (keeps linked) update_status.
Proof. unfold update_status. walk. Qed.

Hint Resolve keeps_linked_update_error keeps_linked_update_status : calls.

Lemma keeps_linked_update_ui : post (keeps linked) update_ui.
Proof. unfold update_ui. walk. Qed.

Lemma keeps_linked_reload_icons : post (keeps linked) reload_icons.
Proof. unfold reload_icons. walk. Qed.

(** *** The stop-and-notify helpers *)

Lemma bind_Ret {A B} (m : M A) (k : A → M B) s a s' :
  m s = (Ret a, s') → bind m k s = k a s'.
Proof. intros E. unfold bind. by rewrite E. Qed.

Lemma bind_Raise {A B} (m : M A) (k : A → M B) s e s' :
  m s = (Raise e, s') → bind m k s = (Raise e, s').
Proof. intros E. unfold bind. by rewrite E. Qed.

Lemma error_dialog_run s p fallback title message exc_info :
  mdbx (self s) = Some p →
  icons (self s) !! SYNCING = Some fallback →
  _stop_and_exec_error_dialog title message exc_info s
  = (Ret tt,
     with_calls [stop_sync; UserDialog_exec title message exc_info]
       (with_self (halted false fallback (self s)) s)).
Proof.
  intros Hm Hi. unfold _stop_and_exec_error_dialog.
  erewrite bind_Ret by (by apply setIcon_run).
  destruct s as [me d h tr]. simpl in *.
  unfold_prims. unfold with_self, with_calls, halted. simpl. rewrite Hm. simpl.
  rewrite Hm. simpl.
  destruct (pauseAction me) as [a|] eqn:Ha; simpl.
  - rewrite Ha. simpl. by rewrite <- (assoc_L (++)).
  - rewrite <- (assoc_L (++)). simpl. do 2 f_equal.
    destruct me; simpl in *; by subst.
Qed.

Lemma relink_dialog_run s p fallback reason :
  mdbx (self s) = Some p →
  icons (self s) !! SYNCING = Some fallback →
  _stop_and_exec_relink_dialog reason s
  = (Ret tt,
     with_calls [stop_sync; RelinkDialog_exec reason]
       (with_self (halted true fallback (self s)) s)).
Proof.
  intros Hm Hi. unfold _stop_and_exec_relink_dialog.
  erewrite bind_Ret by (by apply setIcon_run).
  destruct s as [me d h tr]. simpl in *.
  unfold_prims. unfold with_self, with_calls, halted. simpl. rewrite Hm. simpl.
  rewrite Hm. simpl.
  destruct (pauseAction me) as [a|] eqn:Ha; simpl.
  - rewrite Ha. simpl. by rewrite <- (assoc_L (++)).
  - rewrite <- (assoc_L (++)). simpl. do 2 f_equal.
    destruct me; simpl in *; by subst.
Qed.

(** *** [update_error] *)

Lemma List_last_last {A} (l : list A) (d x : A) :
  last l = Some x → List.last l d = x.
Proof.
  induction l as [|a [|b l] IH]; intros E; simplify_eq/=; [done|].
  by apply IH.
Qed.

Lemma update_error_empty s p :
  mdbx (self s) = Some p →
  maestral_errors (daemon s) = [] →
  update_error s = (Ret tt, s).
Proof.
  intros Hm He. unfold update_error. unfold_prims. by rewrite Hm, He.
Qed.

Lemma update_error_run s p err :
  mdbx (self s) = Some p →
  last (maestral_errors (daemon s)) = Some err →
  update_error s
  = dispatch_error err
      (with_calls [clear_maestral_errors] (with_maestral_errors [] s)).
Proof.
  intros Hm Hl. unfold update_error. unfold_prims. rewrite Hm.
  destruct (maestral_errors (daemon s)) as [|e0 errs] eqn:He; [done|].
  rewrite (List_last_last _ e0 err Hl). simpl. rewrite Hm. reflexivity.
Qed.

(** C1.  With a proxy in [self.mdbx]: on an empty batch [update_error]
    returns at once and leaves the GUI object, the daemon, the host and the
    trace as they were.  On a non-empty batch the first call it makes is
    [clear_maestral_errors], everything else it does is the dispatch on the
    last error run from the state in which the queue is already empty, no
    later call is a [clear_maestral_errors], and the queue is empty at the
    end. *)
Theorem update_error_consume_once s p :
  mdbx (self s) = Some p →
  (maestral_errors (daemon s) = [] → update_error s = (Ret tt, s))
  ∧ (∀ err, last (maestral_errors (daemon s)) = Some err →
       update_error s
       = dispatch_error err
           (with_calls [clear_maestral_errors] (with_maestral_errors [] s))
       ∧ (∃ rest, calls_of update_error s = clear_maestral_errors :: rest
                  ∧ clear_maestral_errors ∉ rest)
       ∧ maestral_errors (daemon (update_error s).2) = []).
Proof.
  intros Hm. split; [by apply (update_error_empty s p)|].
  intros err Hl. unfold calls_of. rewrite (update_error_run s p err Hm Hl).
  split; [done|].
  set (s1 := with_calls _ _).
  destruct (adds_dispatch_error err s1) as (rest & Ht & HP & Hd & _).
  split.
  - exists rest. split.
    + rewrite Ht. unfold s1. simpl.
      rewrite <- (assoc_L (++)). by rewrite drop_app_length.
    + intros Hin. by apply (proj1 (Forall_forall _ _) HP) in Hin.
  - by rewrite Hd.
Qed.

(** C2.  With a proxy in [self.mdbx], a batch ending in [err] is handled
    exactly as the batch that holds [err] alone: same outcome, same final
    state, same calls, namely one [clear_maestral_errors] followed by the
    dispatch on [err].  The errors before [err] add nothing. *)
Theorem update_error_last_only s p earlier err :
  mdbx (self s) = Some p →
  update_error (with_maestral_errors (earlier ++ [err]) s)
  = update_error (with_maestral_errors [err] s)
  ∧ update_error (with_maestral_errors (earlier ++ [err]) s)
    = dispatch_error err
        (with_calls [clear_maestral_errors] (with_maestral_errors [] s)).
Proof.
  intros Hm.
  assert (Hr : ∀ errs, last errs = Some err →
            update_error (with_maestral_errors errs s)
            = dispatch_error err
                (with_calls [clear_maestral_errors]
                   (with_maestral_errors [] s))).
  { intros errs Hl.
    by rewrite (update_error_run (with_maestral_errors errs s) p err). }
  rewrite (Hr (earlier ++ [err])) by apply last_snoc.
  by rewrite (Hr [err]).
Qed.

(** *** The dispatch on the last error *)

Lemma unclassified_inv ty :
  unclassified ty →
  (ty ∉ ["RevFileError"; "BadInputError"]) ∧ ty ≠ "CursorResetError"
  ∧ ty ≠ "DropboxDeletedError" ∧ ty ≠ "DropboxAuthError"
  ∧ ty ≠ "TokenExpiredError".
Proof.
  unfold unclassified. rewrite !not_elem_of_cons. tauto.
Qed.

Lemma dispatch_unclassified err :
  unclassified (err_type err) →
  dispatch_error err
  = (_stop_and_exec_error_dialog "An unexpected error occurred."
       ("Please restart Maestral to continue syncing and contact "
        +:+ "the developer with the information below.")
       (err_traceback err) ;>
     proxy_call "start_sync" start_sync).
Proof.
  intros (H1 & H2 & H3 & H4 & H5)%unclassified_inv. unfold dispatch_error.
  by rewrite !bool_decide_false by done.
Qed.

Lemma proxy_call_run s p attr e :
  mdbx (self s) = Some p → proxy_call attr e s = (Ret tt, with_calls [e] s).
Proof. intros Hm. unfold proxy_call. unfold_prims. by rewrite Hm. Qed.

(** Every branch but the one for a deleted Dropbox folder goes through one
    of the two stop-and-notify helpers. *)
Lemma dispatch_halts s p fallback err :
  mdbx (self s) = Some p →
  icons (self s) !! SYNCING = Some fallback →
  err_type err ≠ "DropboxDeletedError" →
  ∃ evs,
    dispatch_error err s
    = (Ret tt,
       with_calls (stop_sync :: evs)
         (with_self (halted (relinks err) fallback (self s)) s)).
Proof.
  intros Hm Hi Hd. unfold dispatch_error, relinks.
  case_bool_decide as H1.
  { rewrite bool_decide_false.
    - eexists. by apply (error_dialog_run s p).
    - rewrite !elem_of_cons, elem_of_nil in H1.
      rewrite !elem_of_cons, elem_of_nil.
      destruct H1 as [->|[->|[]]]; intros [?|[?|[]]]; discriminate. }
  case_bool_decide as H2.
  { rewrite H2. eexists. by apply (error_dialog_run s p). }
  rewrite bool_decide_false by done.
  case_bool_decide as H4.
  { rewrite H4. eexists. by apply (relink_dialog_run s p). }
  case_bool_decide as H5.
  { rewrite H5. eexists. by apply (relink_dialog_run s p). }
  rewrite bool_decide_false.
  - erewrite bind_Ret by (by apply (error_dialog_run s p)).
    rewrite (proxy_call_run _ p) by done.
    eexists [_; _]. unfold with_calls. simpl.
    by rewrite <- (assoc_L (++)).
  - rewrite !elem_of_cons, elem_of_nil. tauto.
Qed.

Lemma dispatch_deleted s p err :
  mdbx (self s) = Some p →
  err_type err = "DropboxDeletedError" →
  ∃ cmds,
    dispatch_error err s
    = quit (Some true) (with_calls (stop_sync :: (Popen <$> cmds)) s).
Proof.
  intros Hm Hd. unfold dispatch_error. rewrite Hd. simpl.
  erewrite bind_Ret by (by apply (proxy_call_run s p)).
  destruct (restart_run (with_calls [stop_sync] s)) as [cmds ->].
  exists cmds. unfold with_calls. simpl. by rewrite <- (assoc_L (++)).
Qed.

(** The entry relabelled by [_stop_and_exec_error_dialog] is the one
    [on_start_stop_clicked] resumes syncing from. *)
Lemma start_syncing_entry_resumes s p a :
  mdbx (self s) = Some p →
  pauseAction (self s) = Some a →
  text a = "Start Syncing" →
  on_start_stop_clicked s
  = (Ret tt,
     with_calls [start_sync]
       (with_self (set_pauseAction (Some (setText PAUSE_TEXT a)) (self s)) s)).
Proof.
  intros Hm Ha Ht. unfold on_start_stop_clicked, pauseAction_text.
  unfold_prims. rewrite Ha, Ht. simpl. rewrite Ha, Ht. simpl.
  rewrite Ha, Ht. simpl. rewrite Hm. simpl. by rewrite Ha.
Qed.

(** C6.  With a proxy in [self.mdbx] and the icon table loaded, a batch
    whose last error has a type [update_error] does not name is handled by
    exactly these calls, in this order: [clear_maestral_errors],
    [stop_sync], the notice with the error's traceback, [start_sync]; and
    [update_error] returns normally. *)
Theorem update_error_unclassified s p err :
  mdbx (self s) = Some p →
  icons_loaded (self s) →
  last (maestral_errors (daemon s)) = Some err →
  unclassified (err_type err) →
  (update_error s).1 = Ret tt
  ∧ calls_of update_error s
    = [clear_maestral_errors; stop_sync;
       UserDialog_exec "An unexpected error occurred."
         ("Please restart Maestral to continue syncing and contact "
          +:+ "the developer with the information below.")
         (err_traceback err);
       start_sync].
Proof.
  intros Hm Hi Hl Hu. destruct (icons_loaded_SYNCING _ Hi) as [fb Hfb].
  unfold calls_of. rewrite (update_error_run s p err Hm Hl).
  rewrite (dispatch_unclassified err Hu).
  erewrite bind_Ret by (by apply (error_dialog_run _ p fb)).
  rewrite (proxy_call_run _ p) by done. simpl.
  split; [done|].
  rewrite <- !(assoc_L (++)). by rewrite drop_app_length.
Qed.

(** C5, as the code has it.  With a proxy in [self.mdbx] and the icon table
    loaded, every non-empty batch makes [update_error] call [stop_sync].
    Unless the last error is a DropboxDeletedError, the icon key becomes
    [SYNC_ERROR], the tray shows the "error" icon, and the pause entry, if
    it exists, is relabelled "Start Syncing"; it is disabled on the relink
    paths (DropboxAuthError, TokenExpiredError) and keeps its enabled state
    otherwise.  For a DropboxDeletedError the icon key, the icon shown and
    the pause entry stay as they were. *)
Theorem stop_sync_side_effects s p err :
  mdbx (self s) = Some p →
  icons_loaded (self s) →
  last (maestral_errors (daemon s)) = Some err →
  let s' := (update_error s).2 in
  stop_sync ∈ calls_of update_error s
  ∧ if bool_decide (err_type err = "DropboxDeletedError")
    then _current_icon (self s') = _current_icon (self s)
         ∧ tray_icon (self s') = tray_icon (self s)
         ∧ pauseAction (self s') = pauseAction (self s)
    else _current_icon (self s') = SYNC_ERROR
         ∧ (∃ color,
              tray_icon (self s') = Some (get_system_tray_icon "error" color))
         ∧ pauseAction (self s')
           = (λ a, {| text := "Start Syncing";
                      enabled := if relinks err then false else enabled a |})
             <$> pauseAction (self s).
Proof.
  intros Hm Hi Hl. destruct (icons_loaded_SYNCING _ Hi) as [fb Hfb].
  destruct (icons_loaded_SYNC_ERROR _ Hi) as [color Hcolor].
  unfold calls_of. rewrite (update_error_run s p err Hm Hl).
  set (s1 := with_calls _ _).
  case_bool_decide as Hd.
  - destruct (dispatch_deleted s1 p err Hm Hd) as [cmds ->].
    rewrite quit_run. simpl. split; [|done].
    rewrite <- !(assoc_L (++)), drop_app_length.
    apply elem_of_cons. right. apply elem_of_cons. by left.
  - destruct (dispatch_halts s1 p fb err Hm Hfb Hd) as [evs ->]. simpl.
    split.
    + rewrite <- !(assoc_L (++)), drop_app_length.
      apply elem_of_cons. right. apply elem_of_cons. by left.
    + rewrite Hcolor. simpl. eauto.
Qed.

(** *** [update_status] *)

Lemma update_status_same s p :
  mdbx (self s) = Some p →
  _status (self s) = Some (status (daemon s)) →
  _n_errors (self s) = Some (length (sync_errors (daemon s))) →
  update_status s = (Ret tt, s).
Proof.
  intros Hm Hs Hn. unfold update_status. unfold_prims. rewrite Hm. simpl.
  rewrite Hm. simpl. rewrite Hm. simpl.
  by rewrite !bool_decide_true by done.
Qed.

Lemma update_status_changed_facts s p :
  mdbx (self s) = Some p →
  icons_loaded (self s) →
  ui_linked (self s) →
  (_status (self s), _n_errors (self s))
  ≠ (Some (status (daemon s)), Some (length (sync_errors (daemon s)))) →
  let s' := (update_status s).2 in
  (update_status s).1 = Ret tt
  ∧ _current_icon (self s')
    = (if paused (daemon s) then PAUSED else status (daemon s))
  ∧ trace s'
    = trace s ++
      (if bool_decide (_n_errors (self s)
                       = Some (length (sync_errors (daemon s))))
       then [] else [sync_issues_window_reload])
  ∧ _status (self s') = Some (status (daemon s))
  ∧ _n_errors (self s') = Some (length (sync_errors (daemon s)))
  ∧ mdbx (self s') = mdbx (self s)
  ∧ daemon s' = daemon s.
Proof.
  intros Hm Hi ([a1 H1] & [a2 H2] & [a3 H3] & [a4 H4]) Hne.
  destruct (icons_loaded_SYNCING _ Hi) as [fb Hfb].
  unfold update_status. unfold_prims. rewrite Hm. simpl.
  rewrite Hm. simpl. rewrite Hm. simpl.
  assert (Hc : bool_decide (Some (status (daemon s)) = _status (self s))
               && bool_decide (Some (length (sync_errors (daemon s)))
                               = _n_errors (self s)) = false).
  { apply not_true_is_false. intros [E1 E2]%andb_true_iff.
    apply bool_decide_eq_true in E1, E2. apply Hne. by rewrite <- E1, <- E2. }
  rewrite Hc. rewrite (setIcon_run _ _ fb Hfb). simpl.
  unfold setToolTip. unfold_prims.
  destruct (bool_decide (0 < length (sync_errors (daemon s)))); simpl;
    rewrite H2; simpl; rewrite H1; simpl; rewrite H3; simpl; rewrite Hm; simpl;
    rewrite H3; simpl; rewrite H4; simpl.
  all: destruct (bool_decide (platform_system = "Darwin")); simpl.
  all: repeat case_bool_decide; simplify_eq/=; try congruence.
  all: rewrite ?app_nil_r; done.
Qed.

(** C4.  With a proxy in [self.mdbx], a tick of [update_status] that reads
    from the daemon the status and the number of sync issues it has cached
    returns normally and changes nothing: the GUI object (icon, labels,
    tooltip, cached pair), the daemon, the host and the trace (no reload of
    the sync issues window) are as before. *)
Theorem update_status_unchanged s p :
  mdbx (self s) = Some p →
  _status (self s) = Some (status (daemon s)) →
  _n_errors (self s) = Some (length (sync_errors (daemon s))) →
  update_status s = (Ret tt, s).
Proof. apply update_status_same. Qed.

(** After a tick that found a change, a second tick that reads the same
    status and number of sync issues does nothing. *)
Lemma update_status_second_tick s p d' :
  mdbx (self s) = Some p →
  icons_loaded (self s) →
  ui_linked (self s) →
  (_status (self s), _n_errors (self s))
  ≠ (Some (status (daemon s)), Some (length (sync_errors (daemon s)))) →
  status d' = status (daemon s) →
  length (sync_errors d') = length (sync_errors (daemon s)) →
  let s1 := (update_status s).2 in
  let s2 := {| self := self s1; daemon := d'; host := host s1;
               trace := trace s1 |} in
  update_status s2 = (Ret tt, s2).
Proof.
  intros Hm Hi Hu Hne Hs Hn.
  destruct (update_status_changed_facts s p Hm Hi Hu Hne)
    as (_ & _ & _ & Hs' & Hn' & Hm' & _).
  intros s1 s2. apply (update_status_same s2 p); simpl.
  - fold s1 in Hm'. by rewrite Hm'.
  - fold s1 in Hs'. by rewrite Hs', Hs.
  - fold s1 in Hn'. by rewrite Hn', Hn.
Qed.

(** C8.  With a proxy in [self.mdbx], the icon table loaded and the menu
    built by [setup_ui_linked], a tick of [update_status] that reads a
    status or a number of sync issues different from the cached pair
    returns normally, sets the icon key to [PAUSED] if the daemon reports
    paused and to the status it read otherwise, calls
    [sync_issues_window.reload()] once if the number of sync issues differs
    from the cached number and not at all if it is the same, makes no other
    call, and caches the pair it read. *)
Theorem update_status_changed s p :
  mdbx (self s) = Some p →
  icons_loaded (self s) →
  ui_linked (self s) →
  (_status (self s), _n_errors (self s))
  ≠ (Some (status (daemon s)), Some (length (sync_errors (daemon s)))) →
  let s' := (update_status s).2 in
  (update_status s).1 = Ret tt
  ∧ _current_icon (self s')
    = (if paused (daemon s) then PAUSED else status (daemon s))
  ∧ calls_of update_status s
    = (if bool_decide (_n_errors (self s)
                       = Some (length (sync_errors (daemon s))))
       then [] else [sync_issues_window_reload])
  ∧ _status (self s') = Some (status (daemon s))
  ∧ _n_errors (self s') = Some (length (sync_errors (daemon s))).
Proof.
  intros Hm Hi Hu Hne.
  destruct (update_status_changed_facts s p Hm Hi Hu Hne)
    as (Ho & Hic & Ht & Hs' & Hn' & _ & _).
  repeat split; try done.
  by apply calls_of_app.
Qed.

(** *** The timer callback *)

Hint Extern 1 (is_reload _) => reflexivity : calls.

Lemma adds_reload_update_status : post (adds is_reload) update_status.
Proof. unfold update_status. walk. Qed.

Lemma update_ui_run s p :
  mdbx (self s) = Some p →
  update_ui s = (update_status ;> update_error) s.
Proof.
  intros Hm. unfold update_ui. unfold bind at 1. unfold get_self at 1.
  rewrite bool_decide_true; [done|]. rewrite Hm. by eexists.
Qed.

(** X1.  The steady state of the 500 ms loop: with a proxy in [self.mdbx],
    the cached pair equal to what the daemon reports and no error queued,
    [update_ui] only reads from the daemon ([sync_errors], [status],
    [paused], [get_maestral_errors()]) and returns normally.  It writes
    nothing: the GUI object, the daemon and the host are exactly as they
    were, and nothing is added to the trace, so no
    [clear_maestral_errors], no stop or start of syncing, no dialog and no
    reload of the sync issues window takes place. *)
Theorem update_ui_quiet_tick s p :
  mdbx (self s) = Some p →
  _status (self s) = Some (status (daemon s)) →
  _n_errors (self s) = Some (length (sync_errors (daemon s))) →
  maestral_errors (daemon s) = [] →
  update_ui s = (Ret tt, s).
Proof.
  intros Hm Hs Hn He. rewrite (update_ui_run s p Hm).
  erewrite bind_Ret by (by apply (update_status_same s p)).
  by apply (update_error_empty s p).
Qed.

(** X2.  When the status half of a tick raises, [update_ui] raises the same
    exception without reaching [update_error]: the queued errors stay in
    the daemon and no [clear_maestral_errors] is sent, so they are still
    there for the next tick. *)
Theorem update_ui_failed_status_keeps_errors s p e :
  mdbx (self s) = Some p →
  (update_status s).1 = Raise e →
  (update_ui s).1 = Raise e
  ∧ maestral_errors (daemon (update_ui s).2) = maestral_errors (daemon s)
  ∧ clear_maestral_errors ∉ calls_of update_ui s.
Proof.
  intros Hm Hr. unfold calls_of. rewrite (update_ui_run s p Hm).
  destruct (adds_reload_update_status s) as (evs & Ht & HP & Hd & _).
  destruct (update_status s) as [o s1] eqn:E. simpl in *. subst o.
  rewrite (bind_Raise _ _ _ _ _ E). simpl. rewrite Hd, Ht.
  rewrite drop_app_length. repeat split; try done.
  intros Hin. by apply (proj1 (Forall_forall _ _) HP) in Hin.
Qed.

(** X3.  A tick never takes away what the next tick needs: if before
    [update_ui] there is a proxy in [self.mdbx], the icon table is one built
    by [load_tray_icons] and the four menu entries exist, the same holds
    after it, whether it returned, raised or ended in [sys.exit]. *)
Theorem update_ui_keeps_linked s :
  linked (self s) → linked (self (update_ui s).2).
Proof. apply keeps_linked_update_ui. Qed.

(** *** The pause entry *)

Lemma set_pauseAction_id (me : MaestralGuiApp) a :
  pauseAction me = Some a → set_pauseAction (Some a) me = me.
Proof. intros E. destruct me; simpl in *. by subst. Qed.

Lemma click_on_pause s p a :
  mdbx (self s) = Some p →
  pauseAction (self s) = Some a →
  text a = PAUSE_TEXT →
  on_start_stop_clicked s
  = (Ret tt,
     with_calls [pause_sync]
       (with_self (set_pauseAction (Some (setText RESUME_TEXT a)) (self s)) s)).
Proof.
  intros Hm Ha Ht. unfold on_start_stop_clicked, pauseAction_text.
  unfold_prims. rewrite Ha, Ht. simpl. rewrite Hm. simpl. by rewrite Ha.
Qed.

Lemma click_on_resume s p a :
  mdbx (self s) = Some p →
  pauseAction (self s) = Some a →
  text a = RESUME_TEXT →
  on_start_stop_clicked s
  = (Ret tt,
     with_calls [resume_sync]
       (with_self (set_pauseAction (Some (setText PAUSE_TEXT a)) (self s)) s)).
Proof.
  intros Hm Ha Ht. unfold on_start_stop_clicked, pauseAction_text.
  unfold_prims. rewrite Ha, Ht. simpl. rewrite Ha, Ht. simpl.
  rewrite Hm. simpl. by rewrite Ha.
Qed.

(** X4.  Pause and resume are inverse clicks: with a proxy and the pause
    entry reading "Pause Syncing", the first click calls [pause_sync] and
    turns the label into "Resume Syncing"; the second calls [resume_sync]
    and gives back the GUI object as it was before the first, the two calls
    being all that was added to the trace. *)
Theorem pause_resume_round_trip s p a :
  mdbx (self s) = Some p →
  pauseAction (self s) = Some a →
  text a = PAUSE_TEXT →
  on_start_stop_clicked s
  = (Ret tt,
     with_calls [pause_sync]
       (with_self (set_pauseAction (Some (setText RESUME_TEXT a)) (self s)) s))
  ∧ on_start_stop_clicked (on_start_stop_clicked s).2
    = (Ret tt, with_calls [pause_sync; resume_sync] s).
Proof.
  intros Hm Ha Ht. rewrite (click_on_pause s p a Hm Ha Ht).
  split; [done|]. simpl.
  erewrite click_on_resume; [|exact Hm|reflexivity|reflexivity].
  f_equal. destruct s as [me d h tr]. unfold with_calls, with_self. simpl.
  rewrite <- (assoc_L (++)). simpl. f_equal.
  destruct me, a; simpl in *. by subst.
Qed.

(** X5.  Manual resume after an error notice: when [update_error] handled a
    batch whose last error is neither a DropboxDeletedError nor one of the
    two relink kinds, a click on the pause entry (now labelled
    "Start Syncing") calls [start_sync] and nothing else, and sets the label
    back to "Pause Syncing" without touching whether the entry is
    enabled. *)
Theorem click_after_error_notice_resumes s p a err :
  mdbx (self s) = Some p →
  icons_loaded (self s) →
  pauseAction (self s) = Some a →
  last (maestral_errors (daemon s)) = Some err →
  err_type err ≠ "DropboxDeletedError" →
  relinks err = false →
  calls_of on_start_stop_clicked (update_error s).2 = [start_sync]
  ∧ (on_start_stop_clicked (update_error s).2).1 = Ret tt
  ∧ pauseAction (self (on_start_stop_clicked (update_error s).2).2)
    = Some {| text := PAUSE_TEXT; enabled := enabled a |}.
Proof.
  intros Hm Hi Ha Hl Hd Hr. destruct (icons_loaded_SYNCING _ Hi) as [fb Hfb].
  unfold calls_of. rewrite (update_error_run s p err Hm Hl).
  set (s1 := with_calls _ _).
  destruct (dispatch_halts s1 p fb err Hm Hfb Hd) as [evs ->].
  rewrite Hr. simpl snd.
  erewrite (start_syncing_entry_resumes _ p
              {| text := "Start Syncing"; enabled := enabled a |});
    [|exact Hm|unfold s1, halted; simpl; by rewrite Ha|done].
  simpl. by rewrite drop_app_length.
Qed.

(** *** The icon table and the context menu *)

Lemma load_tray_icons_visible me me' :
  _context_menu_visible me = _context_menu_visible me' →
  load_tray_icons me = load_tray_icons me'.
Proof.
  intros E. rewrite !load_tray_icons_fmap. unfold tray_color, contextMenuVisible.
  by rewrite E.
Qed.

Lemma icon_mapping_keys key :
  is_Some (icon_mapping !! key)
  ↔ key ∈ [IDLE; SYNCING; PAUSED; STOPPED; DISCONNECTED; SYNC_ERROR].
Proof.
  unfold icon_mapping. rewrite !lookup_insert, lookup_empty.
  rewrite !elem_of_cons, elem_of_nil.
  repeat case_decide; subst; split; eauto 10.
  - intros [x Hx]. done.
  - intros [?|[?|[?|[?|[?|[?|[]]]]]]]; by subst.
Qed.

Lemma icon_mapping_names key name :
  icon_mapping !! key = Some name →
  name ∈ ["idle"; "syncing"; "paused"; "error"; "disconnected"].
Proof.
  unfold icon_mapping. rewrite !lookup_insert, lookup_empty.
  rewrite !elem_of_cons.
  repeat case_decide; intros E; simplify_eq; eauto 10.
Qed.

(** X6.  [load_tray_icons] always builds a table whose keys are exactly the
    six status constants; every entry is a tray icon of one of the five
    resources "idle", "syncing", "paused", "error", "disconnected", all in
    one colour, and that colour is "light" exactly when the context menu is
    visible on Darwin and the default otherwise. *)
Theorem load_tray_icons_table me :
  (∀ key, is_Some (load_tray_icons me !! key)
          ↔ key ∈ [IDLE; SYNCING; PAUSED; STOPPED; DISCONNECTED; SYNC_ERROR])
  ∧ (∀ key icon, load_tray_icons me !! key = Some icon →
       ∃ name, name ∈ ["idle"; "syncing"; "paused"; "error"; "disconnected"]
               ∧ icon = get_system_tray_icon name (tray_color me))
  ∧ tray_color me
    = (if _context_menu_visible me && bool_decide (platform_system = "Darwin")
       then Some "light" else None).
Proof.
  split; [|split; [|done]].
  - intros key. rewrite load_tray_icons_lookup, <- icon_mapping_keys.
    by rewrite fmap_is_Some.
  - intros key icon. rewrite load_tray_icons_lookup.
    destruct (icon_mapping !! key) as [name|] eqn:E; [|done].
    intros [= <-]. exists name. split; [|done].
    by apply (icon_mapping_names key).
Qed.

(** X7.  The default of [dict.get] is evaluated first: on a table without an
    entry for [SYNCING], [setIcon] raises [KeyError] for every name, one
    that is in the table included, and changes neither [_current_icon] nor
    the icon shown. *)
Theorem setIcon_needs_SYNCING s icon_name :
  icons (self s) !! SYNCING = None →
  setIcon icon_name s = (Raise (KeyError SYNCING), s).
Proof. apply setIcon_KeyError. Qed.

Lemma reload_icons_run s :
  ∃ fallback,
    load_tray_icons (self s) !! SYNCING = Some fallback
    ∧ reload_icons s
      = (Ret tt,
         with_self
           (set_tray_icon
              (Some (default fallback
                       (load_tray_icons (self s) !! _current_icon (self s))))
              (set_icons (load_tray_icons (self s)) (self s))) s).
Proof.
  assert (Hs : is_Some (load_tray_icons (self s) !! SYNCING)).
  { rewrite load_tray_icons_lookup, fmap_is_Some.
    apply icon_mapping_SYNCING. }
  destruct Hs as [fb Hfb]. exists fb. split; [done|].
  unfold reload_icons. unfold_prims. simpl.
  erewrite setIcon_run by (simpl; exact Hfb). simpl.
  unfold with_self. simpl. reflexivity.
Qed.

(** X8.  [reload_icons] always returns normally, and a second call right
    after the first changes nothing: the table, the current key and the
    icon shown are already what the reload makes them. *)
Theorem reload_icons_idempotent s :
  (reload_icons s).1 = Ret tt
  ∧ reload_icons (reload_icons s).2 = (Ret tt, (reload_icons s).2).
Proof.
  destruct (reload_icons_run s) as (fb & Hfb & ->). simpl. split; [done|].
  set (s1 := with_self _ _).
  destruct (reload_icons_run s1) as (fb1 & Hfb1 & ->).
  assert (El : load_tray_icons (self s1) = load_tray_icons (self s))
    by (by apply load_tray_icons_visible).
  rewrite El in *. rewrite Hfb in Hfb1. injection Hfb1 as <-.
  reflexivity.
Qed.

Lemma tray_color_Darwin me :
  platform_system = "Darwin" →
  tray_color me = if _context_menu_visible me then Some "light" else None.
Proof.
  intros E. unfold tray_color, contextMenuVisible.
  rewrite bool_decide_true by done. by destruct (_context_menu_visible me).
Qed.

Lemma shown_resource_lookup me key fallback :
  load_tray_icons me !! SYNCING = Some fallback →
  Some (default fallback (load_tray_icons me !! key))
  = (λ name, get_system_tray_icon name (tray_color me)) <$> shown_resource key.
Proof.
  rewrite !load_tray_icons_lookup. unfold shown_resource.
  destruct (icon_mapping !! key); simpl; [done|]. by intros ->.
Qed.

Lemma context_menu_on_Darwin s :
  platform_system = "Darwin" →
  _onContextMenuAboutToShow s
  = reload_icons (with_self (set__context_menu_visible true (self s)) s)
  ∧ _onContextMenuAboutToHide s
    = reload_icons (with_self (set__context_menu_visible false (self s)) s).
Proof.
  intros Hd. unfold _onContextMenuAboutToShow, _onContextMenuAboutToHide.
  unfold bind, modify_self. simpl. by rewrite !bool_decide_true by done.
Qed.

(** X9.  On Darwin the two menu callbacks switch the icons with the menu:
    [_onContextMenuAboutToShow] rebuilds the whole table in "light" and
    shows the light icon of the current key (of [SYNCING] when the key has
    none), [_onContextMenuAboutToHide] does the same in the default colour;
    both return normally and keep [_current_icon]. *)
Theorem context_menu_switches_colour_on_Darwin s :
  platform_system = "Darwin" →
  (let s1 := (_onContextMenuAboutToShow s).2 in
   (_onContextMenuAboutToShow s).1 = Ret tt
   ∧ _context_menu_visible (self s1) = true
   ∧ icons (self s1)
     = (λ name, get_system_tray_icon name (Some "light")) <$> icon_mapping
   ∧ _current_icon (self s1) = _current_icon (self s)
   ∧ tray_icon (self s1)
     = (λ name, get_system_tray_icon name (Some "light"))
       <$> shown_resource (_current_icon (self s)))
  ∧ (let s2 := (_onContextMenuAboutToHide s).2 in
     (_onContextMenuAboutToHide s).1 = Ret tt
     ∧ _context_menu_visible (self s2) = false
     ∧ icons (self s2)
       = (λ name, get_system_tray_icon name None) <$> icon_mapping
     ∧ _current_icon (self s2) = _current_icon (self s)
     ∧ tray_icon (self s2)
       = (λ name, get_system_tray_icon name None)
         <$> shown_resource (_current_icon (self s))).
Proof.
  intros Hd. destruct (context_menu_on_Darwin s Hd) as [-> ->].
  split.
  - set (s0 := with_self _ s).
    destruct (reload_icons_run s0) as (fb & Hfb & ->).
    cbv zeta. unfold with_self.
    cbn [fst snd self _context_menu_visible icons _current_icon tray_icon
         set_tray_icon set_icons].
    rewrite (shown_resource_lookup _ _ _ Hfb).
    rewrite load_tray_icons_fmap, (tray_color_Darwin _ Hd). by simpl.
  - set (s0 := with_self _ s).
    destruct (reload_icons_run s0) as (fb & Hfb & ->).
    cbv zeta. unfold with_self.
    cbn [fst snd self _context_menu_visible icons _current_icon tray_icon
         set_tray_icon set_icons].
    rewrite (shown_resource_lookup _ _ _ Hfb).
    rewrite load_tray_icons_fmap, (tray_color_Darwin _ Hd). by simpl.
Qed.

Lemma context_menu_only_flag_off_Darwin_aux s :
  platform_system ≠ "Darwin" →
  _onContextMenuAboutToShow s
  = (Ret tt, with_self (set__context_menu_visible true (self s)) s)
  ∧ _onContextMenuAboutToHide s
    = (Ret tt, with_self (set__context_menu_visible false (self s)) s).
Proof.
  intros Hd. unfold _onContextMenuAboutToShow, _onContextMenuAboutToHide.
  unfold_prims. by rewrite !bool_decide_false by done.
Qed.

(** X10.  Off Darwin the menu callbacks only record whether the menu is
    visible; the icon table, the current key and the icon shown stay as
    they are, and no table built by [load_tray_icons] is ever "light". *)
Theorem context_menu_only_flag_off_Darwin s :
  platform_system ≠ "Darwin" →
  _onContextMenuAboutToShow s
  = (Ret tt, with_self (set__context_menu_visible true (self s)) s)
  ∧ _onContextMenuAboutToHide s
    = (Ret tt, with_self (set__context_menu_visible false (self s)) s)
  ∧ ∀ me, load_tray_icons me
          = (λ name, get_system_tray_icon name None) <$> icon_mapping.
Proof.
  intros Hd. destruct (context_menu_only_flag_off_Darwin_aux s Hd) as [-> ->].
  repeat split.
  intros me. rewrite load_tray_icons_fmap. unfold tray_color.
  rewrite bool_decide_false by done. by rewrite andb_false_r.
Qed.

(** X11.  Opening and closing the context menu is a round trip: from a
    state with the menu closed whose table and shown icon are what
    [reload_icons] makes them, [_onContextMenuAboutToShow] followed by
    [_onContextMenuAboutToHide] returns normally both times and gives back
    exactly the state it started from, on every platform. *)
Theorem context_menu_round_trip s :
  settled (self s) →
  _context_menu_visible (self s) = false →
  (_onContextMenuAboutToShow s).1 = Ret tt
  ∧ _onContextMenuAboutToHide (_onContextMenuAboutToShow s).2 = (Ret tt, s).
Proof.
  intros (Hic & fb & Hfb & Htr) Hv.
  destruct (decide (platform_system = "Darwin")) as [Hd|Hd].
  - destruct (context_menu_on_Darwin s Hd) as [-> _].
    set (s0 := with_self _ s).
    destruct (reload_icons_run s0) as (fb0 & Hfb0 & ->). simpl.
    split; [done|].
    set (s1 := with_self _ s0).
    destruct (context_menu_on_Darwin s1 Hd) as [_ ->].
    set (s2 := with_self _ s1).
    destruct (reload_icons_run s2) as (fb1 & Hfb1 & ->).
    assert (El : load_tray_icons (self s2) = icons (self s)).
    { rewrite Hic. apply load_tray_icons_visible. simpl. by rewrite Hv. }
    rewrite El in *. rewrite Hfb in Hfb1. injection Hfb1 as <-.
    f_equal. unfold s2, s1, s0, with_self. simpl. rewrite <- Htr.
    destruct s as [me d h tr]. simpl in *. f_equal.
    destruct me; simpl in *. by subst.
  - destruct (context_menu_only_flag_off_Darwin_aux s Hd) as [-> _].
    simpl. split; [done|].
    destruct (context_menu_only_flag_off_Darwin_aux
                (with_self (set__context_menu_visible true (self s)) s) Hd)
      as [_ ->].
    f_equal. destruct s as [me d h tr]. unfold with_self. simpl in *.
    f_equal. destruct me; simpl in *. by subst.
Qed.

(** *** Leaving: [quit], [restart] and a failed start *)

(** X12.  An explicit [stop_daemon] overrides the bookkeeping: [quit(b)]
    calls [stop_maestral_daemon_process] exactly when [b] is true, a proxy
    is held and the daemon runs outside the GUI process, and the calls it
    makes are the same whatever [_started] says. *)
Theorem quit_explicit_flag s (b : bool) :
  (stop_maestral_daemon_process CONFIG_NAME ∈ calls_of (quit (Some b)) s
   ↔ b = true ∧ is_Some (mdbx (self s)) ∧ IS_MACOS_BUNDLE = false)
  ∧ ∀ started, calls_of (quit (Some b))
                 (with_self (set__started started (self s)) s)
               = calls_of (quit (Some b)) s.
Proof.
  split.
  - rewrite quit_calls_stop_iff. unfold quit_stops_daemon. simpl.
    rewrite !andb_true_iff, bool_decide_eq_true, negb_true_iff. tauto.
  - intros started. by rewrite !quit_calls.
Qed.

(** X13.  [quit] never returns: whatever its argument, it ends in
    [SystemExit(0)] with the update timer stopped and nothing else in the
    GUI object, the daemon or the host changed.  Its last two calls are
    [deleteLater] and [QCoreApplication.quit]; they are the only ones, or
    they come after releasing the proxy and then stopping the daemon
    process, in that order. *)
Theorem quit_never_returns stop_daemon s :
  (quit stop_daemon s).1 = Raise (SystemExit 0)
  ∧ self (quit stop_daemon s).2 = set_update_ui_timer_active false (self s)
  ∧ daemon (quit stop_daemon s).2 = daemon s
  ∧ host (quit stop_daemon s).2 = host s
  ∧ (calls_of (quit stop_daemon) s = [deleteLater; QCoreApplication_quit]
     ∨ calls_of (quit stop_daemon) s
       = [pyroRelease; stop_maestral_daemon_process CONFIG_NAME;
          deleteLater; QCoreApplication_quit]).
Proof.
  rewrite quit_calls, quit_run. simpl. repeat split.
  destruct (quit_stops_daemon stop_daemon (self s)); auto.
Qed.

Lemma restart_run_length s :
  ∃ cmds,
    restart s = quit (Some true) (with_calls (Popen <$> cmds) s)
    ∧ length cmds
      = (if IS_MACOS_BUNDLE then 1 else 0)
        + (if relaunch_platform then 1 else 0).
Proof.
  unfold restart, relaunch_platform. unfold_prims.
  destruct IS_MACOS_BUNDLE;
    destruct (bool_decide (platform_system = "Darwin"));
    try destruct (bool_decide (platform_system = "Linux")); simpl.
  all: try (eexists [_; _]; split; [|reflexivity]; unfold with_calls; simpl;
            rewrite <- (assoc_L (++)); reflexivity).
  all: try (eexists [_]; split; [|reflexivity]; unfold with_calls; simpl;
            reflexivity).
  all: exists []; split; [|reflexivity]; by rewrite with_calls_nil.
Qed.

Lemma filter_is_Popen_quit_calls (b : bool) :
  filter (λ e, is_Popen e)
    ((if b then [pyroRelease; stop_maestral_daemon_process CONFIG_NAME]
      else []) ++ [deleteLater; QCoreApplication_quit]) = [].
Proof. by destruct b. Qed.

Lemma filter_is_Popen_fmap (cmds : list string) :
  filter (λ e, is_Popen e) (Popen <$> cmds) = Popen <$> cmds.
Proof.
  induction cmds as [|c cmds IH]; [done|].
  rewrite fmap_cons, filter_cons_True by done. by rewrite IH.
Qed.

(** X14.  How many relaunches [restart] schedules: one [Popen] when the
    platform is Darwin or Linux and none on any other platform, plus one
    more inside the macOS bundle.  So the bundle on Darwin schedules two,
    and a platform that is neither Darwin nor Linux quits without any
    relaunch. *)
Theorem restart_popen_count s :
  length (filter (λ e, is_Popen e) (calls_of restart s))
  = (if IS_MACOS_BUNDLE then 1 else 0) + (if relaunch_platform then 1 else 0).
Proof.
  destruct (restart_run_length s) as (cmds & E & <-).
  unfold calls_of. rewrite E, quit_run. simpl.
  rewrite <- (assoc_L (++)), drop_app_length.
  rewrite filter_app, filter_is_Popen_quit_calls, app_nil_r.
  by rewrite filter_is_Popen_fmap, length_fmap.
Qed.

Lemma restart_Linux_run s :
  platform_system = "Linux" →
  IS_MACOS_BUNDLE = false →
  restart s
  = quit (Some true)
      (with_calls
         [Popen ("tail --pid=" +:+ pretty (os_getpid (host s))
                 +:+ " -f /dev/null; maestral gui --config-name='"
                 +:+ CONFIG_NAME +:+ "'")] s).
Proof.
  intros Hp Hb. unfold restart. unfold_prims. rewrite Hb, Hp. simpl.
  reflexivity.
Qed.

(** X15.  A launch that fails at start-up, before any proxy is held: the
    resolver launches, notifies and quits, and that is all.  It sets
    [_started], ends in [SystemExit(0)], never asks for a proxy and never
    stops a daemon process. *)
Theorem resolver_failed_first_start s :
  mdbx (self s) = None →
  pid_truthy (maestral_pid (host s)) = false →
  start_result (host s) = false →
  (_get_or_start_maestral_daemon s).1 = Raise (SystemExit 0)
  ∧ calls_of _get_or_start_maestral_daemon s
    = [launch_call;
       UserDialog_exec "Could not start Maestral"
         ("Could not start or connect to sync daemon. Please try again and "
          +:+ "contact the developer if this issue persists.")
         None;
       deleteLater; QCoreApplication_quit]
  ∧ _started (self (_get_or_start_maestral_daemon s).2) = true
  ∧ mdbx (self (_get_or_start_maestral_daemon s).2) = None.
Proof.
  intros Hm Hp Hr. unfold calls_of, _get_or_start_maestral_daemon, launch_call.
  unfold quit. unfold_prims. rewrite Hp.
  destruct IS_MACOS_BUNDLE; simpl; rewrite Hr; simpl; rewrite Hm; simpl;
    rewrite ?andb_false_r; simpl;
    rewrite <- !(assoc_L (++)), drop_app_length; done.
Qed.

(** *** The stop-and-notify helpers without proxy or pause entry *)

(** X16.  The two helpers guard what may be missing: on a table with an
    entry for [SYNCING] they always return normally, having set the icon
    key to [SYNC_ERROR] and run their dialog; [stop_sync] is called only
    when [self.mdbx] holds a proxy, and the pause entry is relabelled only
    when the attribute exists. *)
Theorem stop_helpers_guard_missing_parts s fallback :
  icons (self s) !! SYNCING = Some fallback →
  (∀ title message exc_info,
     _stop_and_exec_error_dialog title message exc_info s
     = (Ret tt,
        with_calls
          ((if bool_decide (is_Some (mdbx (self s))) then [stop_sync] else [])
           ++ [UserDialog_exec title message exc_info])
          (with_self (halted false fallback (self s)) s)))
  ∧ (∀ reason,
       _stop_and_exec_relink_dialog reason s
       = (Ret tt,
          with_calls
            ((if bool_decide (is_Some (mdbx (self s))) then [stop_sync]
              else []) ++ [RelinkDialog_exec reason])
            (with_self (halted true fallback (self s)) s))).
Proof.
  intros Hi. split.
  - intros title message exc_info. unfold _stop_and_exec_error_dialog.
    erewrite bind_Ret by (by apply setIcon_run).
    destruct s as [me d h tr]. simpl in *.
    unfold_prims. unfold with_self, with_calls, halted. simpl.
    destruct (mdbx me) as [p|] eqn:Hm; simpl; rewrite ?Hm; simpl;
      destruct (pauseAction me) as [a|] eqn:Ha; simpl; rewrite ?Ha; simpl;
      rewrite <- ?(assoc_L (++)); simpl; try done.
    all: do 2 f_equal; destruct me; simpl in *; by subst.
  - intros reason. unfold _stop_and_exec_relink_dialog.
    erewrite bind_Ret by (by apply setIcon_run).
    destruct s as [me d h tr]. simpl in *.
    unfold_prims. unfold with_self, with_calls, halted. simpl.
    destruct (mdbx me) as [p|] eqn:Hm; simpl; rewrite ?Hm; simpl;
      destruct (pauseAction me) as [a|] eqn:Ha; simpl; rewrite ?Ha; simpl;
      rewrite <- ?(assoc_L (++)); simpl; try done.
    all: do 2 f_equal; destruct me; simpl in *; by subst.
Qed.

(** *** What a changed tick writes *)

Lemma update_status_changed_widgets s p a1 a2 a3 a4 :
  mdbx (self s) = Some p →
  icons_loaded (self s) →
  pauseAction (self s) = Some a1 →
  syncIssuesAction (self s) = Some a2 →
  accountUsageAction (self s) = Some a3 →
  statusAction (self s) = Some a4 →
  (_status (self s), _n_errors (self s))
  ≠ (Some (status (daemon s)), Some (length (sync_errors (daemon s)))) →
  let s' := (update_status s).2 in
  let n := length (sync_errors (daemon s)) in
  syncIssuesAction (self s')
  = Some (setText (if bool_decide (0 < n)
                   then "Show Sync Issues (" +:+ pretty n +:+ ")..."
                   else "Show Sync Issues...") a2)
  ∧ pauseAction (self s')
    = Some (setText (if paused (daemon s) then RESUME_TEXT else PAUSE_TEXT) a1)
  ∧ accountUsageAction (self s')
    = Some (setText (conf_account_usage (daemon s)) a3)
  ∧ statusAction (self s')
    = Some (setText (elide_string (status (daemon s))) a4)
  ∧ tray_toolTip (self s')
    = (if bool_decide (platform_system = "Darwin")
       then tray_toolTip (self s)
       else Some (elide_string (status (daemon s)))).
Proof.
  intros Hm Hi H1 H2 H3 H4 Hne.
  destruct (icons_loaded_SYNCING _ Hi) as [fb Hfb].
  unfold update_status. unfold_prims. rewrite Hm. simpl.
  rewrite Hm. simpl. rewrite Hm. simpl.
  assert (Hc : bool_decide (Some (status (daemon s)) = _status (self s))
               && bool_decide (Some (length (sync_errors (daemon s)))
                               = _n_errors (self s)) = false).
  { apply not_true_is_false. intros [E1 E2]%andb_true_iff.
    apply bool_decide_eq_true in E1, E2. apply Hne. by rewrite <- E1, <- E2. }
  rewrite Hc. rewrite (setIcon_run _ _ fb Hfb). simpl.
  unfold setToolTip. unfold_prims.
  destruct (bool_decide (0 < length (sync_errors (daemon s)))); simpl;
    rewrite H2; simpl; rewrite H1; simpl; rewrite H3; simpl; rewrite Hm; simpl;
    rewrite H3; simpl; rewrite H4; simpl.
  all: destruct (bool_decide (platform_system = "Darwin")); simpl.
  all: destruct (negb (bool_decide (Some (length (sync_errors (daemon s)))
                                    = _n_errors (self s)))); simpl.
  all: done.
Qed.

(** X17.  What a changed tick writes into the menu: the sync-issues entry
    reads "Show Sync Issues (n)..." for n > 0 issues and "Show Sync
    Issues..." for none, the pause entry reads "Resume Syncing" when the
    daemon is paused and "Pause Syncing" otherwise (replacing a
    "Start Syncing" left by an error notice), the usage entry shows the
    daemon's usage text and the status entry the elided status.  Only the
    texts change: every entry keeps its enabled state. *)
Theorem update_status_labels s p a1 a2 a3 a4 :
  mdbx (self s) = Some p →
  icons_loaded (self s) →
  pauseAction (self s) = Some a1 →
  syncIssuesAction (self s) = Some a2 →
  accountUsageAction (self s) = Some a3 →
  statusAction (self s) = Some a4 →
  (_status (self s), _n_errors (self s))
  ≠ (Some (status (daemon s)), Some (length (sync_errors (daemon s)))) →
  let s' := (update_status s).2 in
  let n := length (sync_errors (daemon s)) in
  syncIssuesAction (self s')
  = Some {| text := if bool_decide (0 < n)
                    then "Show Sync Issues (" +:+ pretty n +:+ ")..."
                    else "Show Sync Issues...";
            enabled := enabled a2 |}
  ∧ pauseAction (self s')
    = Some {| text := if paused (daemon s) then "Resume Syncing"
                      else "Pause Syncing";
              enabled := enabled a1 |}
  ∧ accountUsageAction (self s')
    = Some {| text := conf_account_usage (daemon s); enabled := enabled a3 |}
  ∧ statusAction (self s')
    = Some {| text := elide_string (status (daemon s));
              enabled := enabled a4 |}.
Proof.
  intros Hm Hi H1 H2 H3 H4 Hne.
  destruct (update_status_changed_widgets s p a1 a2 a3 a4 Hm Hi H1 H2 H3 H4 Hne)
    as (E2 & E1 & E3 & E4 & _).
  cbv zeta. by rewrite E1, E2, E3, E4.
Qed.

(** X18.  The tooltip follows the status except on Darwin: a changed tick
    sets the tooltip to the elided status on every other platform, and on
    Darwin it leaves the tooltip exactly as it was. *)
Theorem update_status_toolTip s p :
  mdbx (self s) = Some p →
  icons_loaded (self s) →
  ui_linked (self s) →
  (_status (self s), _n_errors (self s))
  ≠ (Some (status (daemon s)), Some (length (sync_errors (daemon s)))) →
  tray_toolTip (self (update_status s).2)
  = (if bool_decide (platform_system = "Darwin")
     then tray_toolTip (self s)
     else Some (elide_string (status (daemon s)))).
Proof.
  intros Hm Hi ([a1 H1] & [a2 H2] & [a3 H3] & [a4 H4]) Hne.
  by destruct (update_status_changed_widgets s p a1 a2 a3 a4
                 Hm Hi H1 H2 H3 H4 Hne) as (_ & _ & _ & _ & E).
Qed.

(** X19.  A changed tick on a menu that is not fully built fails without
    forgetting the change: with a proxy and the icon table loaded but one
    of the four menu entries missing, [update_status] raises
    [AttributeError] after it has set the icon key.  By then it has only
    read from the daemon: nothing is added to the trace, so
    [sync_issues_window.reload()] has not been called, and the cached pair
    is as it was, so the next tick sees the change again. *)
Theorem update_status_unbuilt_menu s p :
  mdbx (self s) = Some p →
  icons_loaded (self s) →
  ¬ ui_linked (self s) →
  (_status (self s), _n_errors (self s))
  ≠ (Some (status (daemon s)), Some (length (sync_errors (daemon s)))) →
  let s' := (update_status s).2 in
  (∃ attr, (update_status s).1 = Raise (AttributeError attr))
  ∧ calls_of update_status s = []
  ∧ _status (self s') = _status (self s)
  ∧ _n_errors (self s') = _n_errors (self s)
  ∧ _current_icon (self s')
    = (if paused (daemon s) then PAUSED else status (daemon s)).
Proof.
  intros Hm Hi Hu Hne.
  destruct (icons_loaded_SYNCING _ Hi) as [fb Hfb].
  unfold calls_of, update_status. unfold_prims. rewrite Hm. simpl.
  rewrite Hm. simpl. rewrite Hm. simpl.
  assert (Hc : bool_decide (Some (status (daemon s)) = _status (self s))
               && bool_decide (Some (length (sync_errors (daemon s)))
                               = _n_errors (self s)) = false).
  { apply not_true_is_false. intros [E1 E2]%andb_true_iff.
    apply bool_decide_eq_true in E1, E2. apply Hne. by rewrite <- E1, <- E2. }
  rewrite Hc. rewrite (setIcon_run _ _ fb Hfb). simpl.
  destruct (syncIssuesAction (self s)) as [a2|] eqn:H2;
    destruct (pauseAction (self s)) as [a1|] eqn:H1;
    destruct (accountUsageAction (self s)) as [a3|] eqn:H3;
    destruct (statusAction (self s)) as [a4|] eqn:H4.
  1: { exfalso. apply Hu. unfold ui_linked. rewrite H1, H2, H3, H4. eauto. }
  all: destruct (bool_decide (0 < length (sync_errors (daemon s)))); simpl;
       rewrite ?H2; simpl; rewrite ?H1; simpl; rewrite ?H3; simpl;
       rewrite ?Hm; simpl; rewrite ?H3; simpl; rewrite ?H4; simpl.
  all: rewrite drop_all; eauto 10.
Qed.

(** *** The dispatch table of [update_error] *)

Lemma dispatch_own_notice s p fallback err :
  mdbx (self s) = Some p →
  icons (self s) !! SYNCING = Some fallback →
  err_type err ∈ ["RevFileError"; "BadInputError"] →
  dispatch_error err s
  = (Ret tt,
     with_calls [stop_sync;
                 UserDialog_exec (err_title err) (err_message err) None]
       (with_self (halted false fallback (self s)) s)).
Proof.
  intros Hm Hi Ht. unfold dispatch_error. rewrite bool_decide_true by done.
  by apply (error_dialog_run s p).
Qed.

Lemma dispatch_cursor_reset s p fallback err :
  mdbx (self s) = Some p →
  icons (self s) !! SYNCING = Some fallback →
  err_type err = "CursorResetError" →
  dispatch_error err s
  = (Ret tt,
     with_calls [stop_sync;
                 UserDialog_exec "Dropbox has reset its sync state."
                   ("Please go to " +:+ dquote +:+ "Rebuild index..."
                    +:+ dquote +:+ " to re-sync your Dropbox.") None]
       (with_self (halted false fallback (self s)) s)).
Proof.
  intros Hm Hi Ht. unfold dispatch_error. rewrite Ht. simpl.
  by apply (error_dialog_run s p).
Qed.

Lemma dispatch_relink s p fallback err :
  mdbx (self s) = Some p →
  icons (self s) !! SYNCING = Some fallback →
  err_type err ∈ ["DropboxAuthError"; "TokenExpiredError"] →
  dispatch_error err s
  = (Ret tt,
     with_calls [stop_sync;
                 RelinkDialog_exec
                   (if bool_decide (err_type err = "DropboxAuthError")
                    then REVOKED else EXPIRED)]
       (with_self (halted true fallback (self s)) s)).
Proof.
  intros Hm Hi Ht. unfold dispatch_error.
  rewrite !elem_of_cons, elem_of_nil in Ht.
  destruct Ht as [->|[->|[]]]; simpl; by apply (relink_dialog_run s p).
Qed.

Lemma dispatch_unclassified_run s p fallback err :
  mdbx (self s) = Some p →
  icons (self s) !! SYNCING = Some fallback →
  unclassified (err_type err) →
  dispatch_error err s
  = (Ret tt,
     with_calls [stop_sync;
                 UserDialog_exec "An unexpected error occurred."
                   ("Please restart Maestral to continue syncing and contact "
                    +:+ "the developer with the information below.")
                   (err_traceback err);
                 start_sync]
       (with_self (halted false fallback (self s)) s)).
Proof.
  intros Hm Hi Hu. rewrite (dispatch_unclassified err Hu).
  erewrite bind_Ret by (by apply (error_dialog_run s p fallback)).
  rewrite (proxy_call_run _ p) by done.
  unfold with_calls. simpl. by rewrite <- (assoc_L (++)).
Qed.

(** The calls of [update_error] on a non-empty batch, given those of the
    dispatch. *)
Lemma update_error_calls s p err o s' :
  mdbx (self s) = Some p →
  last (maestral_errors (daemon s)) = Some err →
  dispatch_error err
    (with_calls [clear_maestral_errors] (with_maestral_errors [] s))
  = (o, s') →
  (update_error s).1 = o
  ∧ calls_of update_error s = drop (length (trace s)) (trace s').
Proof.
  intros Hm Hl E. unfold calls_of.
  by rewrite (update_error_run s p err Hm Hl), E.
Qed.

Lemma classified_cases ty :
  ¬ unclassified ty →
  ty ∈ ["RevFileError"; "BadInputError"] ∨ ty = "CursorResetError"
  ∨ ty = "DropboxDeletedError"
  ∨ ty ∈ ["DropboxAuthError"; "TokenExpiredError"].
Proof.
  unfold unclassified. intros Hn. apply dec_stable in Hn.
  rewrite !elem_of_cons, elem_of_nil in *. tauto.
Qed.

(** X20.  Syncing is resumed by the handler only for errors it does not
    know: with a proxy and the icon table loaded, [update_error] on a
    non-empty batch calls [start_sync] if and only if the type of the last
    error is none of the six it names. *)
Theorem update_error_resumes_iff_unclassified s p err :
  mdbx (self s) = Some p →
  icons_loaded (self s) →
  last (maestral_errors (daemon s)) = Some err →
  start_sync ∈ calls_of update_error s ↔ unclassified (err_type err).
Proof.
  intros Hm Hi Hl. destruct (icons_loaded_SYNCING _ Hi) as [fb Hfb].
  set (s1 := with_calls [clear_maestral_errors] (with_maestral_errors [] s)).
  destruct (decide (unclassified (err_type err))) as [Hu|Hu].
  - destruct (update_error_calls s p err _ _ Hm Hl
                (dispatch_unclassified_run s1 p fb err Hm Hfb Hu)) as [_ ->].
    simpl. rewrite <- (assoc_L (++)), drop_app_length. simpl.
    split; [done|]. intros _. rewrite !elem_of_cons. tauto.
  - split; [|done]. intros Hin. exfalso.
    destruct (classified_cases _ Hu) as [Ht|[Ht|[Ht|Ht]]].
    + destruct (update_error_calls s p err _ _ Hm Hl
                  (dispatch_own_notice s1 p fb err Hm Hfb Ht)) as [_ E].
      rewrite E in Hin. simpl in Hin.
      rewrite <- (assoc_L (++)), drop_app_length in Hin. simpl in Hin.
      rewrite !elem_of_cons, elem_of_nil in Hin.
      by destruct Hin as [?|[?|[?|[]]]].
    + destruct (update_error_calls s p err _ _ Hm Hl
                  (dispatch_cursor_reset s1 p fb err Hm Hfb Ht)) as [_ E].
      rewrite E in Hin. simpl in Hin.
      rewrite <- (assoc_L (++)), drop_app_length in Hin. simpl in Hin.
      rewrite !elem_of_cons, elem_of_nil in Hin.
      by destruct Hin as [?|[?|[?|[]]]].
    + destruct (dispatch_deleted s1 p err Hm Ht) as [cmds Ed].
      rewrite quit_run in Ed.
      destruct (update_error_calls s p err _ _ Hm Hl Ed) as [_ E].
      rewrite E in Hin. simpl in Hin.
      rewrite <- !(assoc_L (++)), drop_app_length in Hin. simpl in Hin.
      rewrite !elem_of_cons, elem_of_app, list_elem_of_fmap in Hin.
      destruct Hin as [?|[?|[(c & ? & _)|Hin]]]; try done.
      destruct (quit_stops_daemon _ _); simpl in Hin;
        rewrite !elem_of_cons, elem_of_nil in Hin;
        repeat (destruct Hin as [?|Hin]; [done|]); done.
    + destruct (update_error_calls s p err _ _ Hm Hl
                  (dispatch_relink s1 p fb err Hm Hfb Ht)) as [_ E].
      rewrite E in Hin. simpl in Hin.
      rewrite <- (assoc_L (++)), drop_app_length in Hin. simpl in Hin.
      rewrite !elem_of_cons, elem_of_nil in Hin.
      by destruct Hin as [?|[?|[?|[]]]].
Qed.

Lemma filter_is_dialog_fmap_Popen (cmds : list string) :
  filter (λ e, is_dialog e) (Popen <$> cmds) = [].
Proof.
  induction cmds as [|c cmds IH]; [done|].
  rewrite fmap_cons, filter_cons_False; [done|]. by intros ?.
Qed.

(** X21.  Never more than one dialog for a batch, whatever its size:
    with a proxy and the icon table loaded, [update_error] runs no dialog
    and returns normally on the empty batch; on a non-empty batch it runs
    exactly one modal dialog and returns normally, unless the last error
    is a DropboxDeletedError, for which it runs no dialog at all and ends
    in [SystemExit(0)]. *)
Theorem update_error_one_dialog s p :
  mdbx (self s) = Some p →
  icons_loaded (self s) →
  match last (maestral_errors (daemon s)) with
  | None =>
      (update_error s).1 = Ret tt
      ∧ filter (λ e, is_dialog e) (calls_of update_error s) = []
  | Some err =>
      if bool_decide (err_type err = "DropboxDeletedError")
      then (update_error s).1 = Raise (SystemExit 0)
           ∧ filter (λ e, is_dialog e) (calls_of update_error s) = []
      else (update_error s).1 = Ret tt
           ∧ length (filter (λ e, is_dialog e) (calls_of update_error s)) = 1
  end.
Proof.
  intros Hm Hi. destruct (icons_loaded_SYNCING _ Hi) as [fb Hfb].
  destruct (last (maestral_errors (daemon s))) as [err|] eqn:Hl; last first.
  { apply last_None in Hl. unfold calls_of.
    rewrite (update_error_empty s p Hm Hl). simpl.
    by rewrite drop_all. }
  set (s1 := with_calls [clear_maestral_errors] (with_maestral_errors [] s)).
  case_bool_decide as Hd.
  - destruct (dispatch_deleted s1 p err Hm Hd) as [cmds Ed].
    rewrite quit_run in Ed.
    destruct (update_error_calls s p err _ _ Hm Hl Ed) as [-> ->].
    split; [done|]. simpl.
    rewrite <- !(assoc_L (++)), drop_app_length. simpl.
    rewrite filter_cons_False by (by intros ?).
    rewrite filter_cons_False by (by intros ?).
    rewrite filter_app, filter_is_dialog_fmap_Popen. simpl.
    by destruct (quit_stops_daemon _ _).
  - destruct (decide (unclassified (err_type err))) as [Hu|Hu].
    + destruct (update_error_calls s p err _ _ Hm Hl
                  (dispatch_unclassified_run s1 p fb err Hm Hfb Hu))
        as [-> ->].
      split; [done|]. simpl.
      by rewrite <- (assoc_L (++)), drop_app_length.
    + destruct (classified_cases _ Hu) as [Ht|[Ht|[Ht|Ht]]]; [| |done|].
      * destruct (update_error_calls s p err _ _ Hm Hl
                    (dispatch_own_notice s1 p fb err Hm Hfb Ht)) as [-> ->].
        split; [done|]. simpl.
        by rewrite <- (assoc_L (++)), drop_app_length.
      * destruct (update_error_calls s p err _ _ Hm Hl
                    (dispatch_cursor_reset s1 p fb err Hm Hfb Ht)) as [-> ->].
        split; [done|]. simpl.
        by rewrite <- (assoc_L (++)), drop_app_length.
      * destruct (update_error_calls s p err _ _ Hm Hl
                    (dispatch_relink s1 p fb err Hm Hfb Ht)) as [-> ->].
        split; [done|]. simpl.
        by rewrite <- (assoc_L (++)), drop_app_length.
Qed.

(** X22.  A RevFileError or BadInputError at the end of the batch is shown
    with its own title and message and without a traceback, even when the
    error carries one: the calls are [clear_maestral_errors], [stop_sync]
    and that notice, in this order, and syncing is left stopped. *)
Theorem update_error_own_notice s p err :
  mdbx (self s) = Some p →
  icons_loaded (self s) →
  last (maestral_errors (daemon s)) = Some err →
  err_type err ∈ ["RevFileError"; "BadInputError"] →
  (update_error s).1 = Ret tt
  ∧ calls_of update_error s
    = [clear_maestral_errors; stop_sync;
       UserDialog_exec (err_title err) (err_message err) None].
Proof.
  intros Hm Hi Hl Ht. destruct (icons_loaded_SYNCING _ Hi) as [fb Hfb].
  set (s1 := with_calls [clear_maestral_errors] (with_maestral_errors [] s)).
  destruct (update_error_calls s p err _ _ Hm Hl
              (dispatch_own_notice s1 p fb err Hm Hfb Ht)) as [-> ->].
  split; [done|]. simpl. by rewrite <- (assoc_L (++)), drop_app_length.
Qed.

(** X23.  A CursorResetError at the end of the batch is answered with a
    fixed notice that sends the user to "Rebuild index...": whatever title,
    message and traceback the error carries, the calls are
    [clear_maestral_errors], [stop_sync] and that one notice. *)
Theorem update_error_cursor_reset s p err :
  mdbx (self s) = Some p →
  icons_loaded (self s) →
  last (maestral_errors (daemon s)) = Some err →
  err_type err = "CursorResetError" →
  (update_error s).1 = Ret tt
  ∧ calls_of update_error s
    = [clear_maestral_errors; stop_sync;
       UserDialog_exec "Dropbox has reset its sync state."
         ("Please go to " +:+ dquote +:+ "Rebuild index..." +:+ dquote
          +:+ " to re-sync your Dropbox.") None].
Proof.
  intros Hm Hi Hl Ht. destruct (icons_loaded_SYNCING _ Hi) as [fb Hfb].
  set (s1 := with_calls [clear_maestral_errors] (with_maestral_errors [] s)).
  destruct (update_error_calls s p err _ _ Hm Hl
              (dispatch_cursor_reset s1 p fb err Hm Hfb Ht)) as [-> ->].
  split; [done|]. simpl. by rewrite <- (assoc_L (++)), drop_app_length.
Qed.

(** X24.  The two authentication errors open the relink dialog with their
    own reason: a DropboxAuthError with [RelinkDialog.REVOKED], a
    TokenExpiredError with [RelinkDialog.EXPIRED]; the calls are
    [clear_maestral_errors], [stop_sync] and that dialog, and no
    [UserDialog] is shown. *)
Theorem update_error_relink_reason s p err :
  mdbx (self s) = Some p →
  icons_loaded (self s) →
  last (maestral_errors (daemon s)) = Some err →
  err_type err ∈ ["DropboxAuthError"; "TokenExpiredError"] →
  (update_error s).1 = Ret tt
  ∧ calls_of update_error s
    = [clear_maestral_errors; stop_sync;
       RelinkDialog_exec (if bool_decide (err_type err = "DropboxAuthError")
                          then REVOKED else EXPIRED)].
Proof.
  intros Hm Hi Hl Ht. destruct (icons_loaded_SYNCING _ Hi) as [fb Hfb].
  set (s1 := with_calls [clear_maestral_errors] (with_maestral_errors [] s)).
  destruct (update_error_calls s p err _ _ Hm Hl
              (dispatch_relink s1 p fb err Hm Hfb Ht)) as [-> ->].
  split; [done|]. simpl. by rewrite <- (assoc_L (++)), drop_app_length.
Qed.

(** X25.  A deleted Dropbox folder on Linux, end to end: with a proxy held
    and the daemon in a process of its own, [update_error] clears the
    queue, stops syncing, schedules the relaunch that waits for the GUI's
    pid, releases the proxy, stops the daemon process even if the GUI had
    not started it, asks Qt to quit and ends in [SystemExit(0)]; these are
    all its calls, in this order. *)
Theorem update_error_deleted_on_Linux s p err :
  platform_system = "Linux" →
  IS_MACOS_BUNDLE = false →
  mdbx (self s) = Some p →
  last (maestral_errors (daemon s)) = Some err →
  err_type err = "DropboxDeletedError" →
  (update_error s).1 = Raise (SystemExit 0)
  ∧ calls_of update_error s
    = [clear_maestral_errors; stop_sync;
       Popen ("tail --pid=" +:+ pretty (os_getpid (host s))
              +:+ " -f /dev/null; maestral gui --config-name='"
              +:+ CONFIG_NAME +:+ "'");
       pyroRelease; stop_maestral_daemon_process CONFIG_NAME;
       deleteLater; QCoreApplication_quit].
Proof.
  intros Hp Hb Hm Hl Ht.
  set (s1 := with_calls [clear_maestral_errors] (with_maestral_errors [] s)).
  assert (Ed : dispatch_error err s1
               = quit (Some true)
                   (with_calls
                      [Popen ("tail --pid=" +:+ pretty (os_getpid (host s))
                              +:+ " -f /dev/null; maestral gui --config-name='"
                              +:+ CONFIG_NAME +:+ "'")]
                      (with_calls [stop_sync] s1))).
  { unfold dispatch_error. rewrite Ht. simpl.
    erewrite bind_Ret by (by apply (proxy_call_run s1 p)).
    by rewrite (restart_Linux_run _ Hp Hb). }
  rewrite quit_run in Ed.
  destruct (update_error_calls s p err _ _ Hm Hl Ed) as [-> ->].
  split; [done|]. simpl.
  unfold quit_stops_daemon. simpl. rewrite Hm, Hb. simpl.
  by rewrite <- !(assoc_L (++)), drop_app_length.
Qed.

End Theory.

(** ** Properties of the recent-files menu and the update notice *)

Section AppTheory.
Context `{Externals} `{MenuExternals}.

Ltac unfold_app :=
  cbv [U_bind U_ret U_raise lift get_app set_recentFilesMenu
       set_conf_update_notification_last recentFilesMenu_clear
       recentFilesMenu_addAction the_proxy bind ret raise get_self call] in *.

Lemma with_core_calls_nil (a : AppState) :
  with_core (with_calls [] (core a)) a = a.
Proof. destruct a. unfold with_core. simpl. by rewrite with_calls_nil. Qed.

Lemma with_update_notification_last_id (a : AppState) :
  with_update_notification_last (conf_update_notification_last a) a = a.
Proof. by destruct a. Qed.

Lemma with_recentFilesMenu_id (a : AppState) entries :
  recentFilesMenu a = Some entries →
  with_recentFilesMenu (Some entries) a = a.
Proof. intros E. destruct a; simpl in *. by subst. Qed.

(** *** [_notify_updates] *)

(** X26.  When the result of an update check is shown and when it is
    remembered: with a proxy in [self.mdbx], [_notify_updates] returns
    normally having run exactly one dialog, except for a background check
    that found no update, which runs none (whatever error it carries) and
    changes nothing.  The time of the notice is written to
    "update_notification_last" exactly for a background check that found an
    update; a check the user asked for never writes it. *)
Theorem notify_updates_effects res (user_requested : bool) (a : AppState) p :
  mdbx (self (core a)) = Some p →
  ∃ dialogs,
    _notify_updates res user_requested a
    = (Ret tt,
       with_update_notification_last
         (if negb user_requested && update_available res
          then time_time a else conf_update_notification_last a)
         (with_core (with_calls dialogs (core a)) a))
    ∧ Forall (λ e, is_dialog e) dialogs
    ∧ length dialogs
      = (if negb user_requested && negb (update_available res)
         then 0 else 1).
Proof.
  intros Hm. unfold _notify_updates.
  destruct user_requested, (error_truthy (upd_error res)),
    (update_available res); simpl.
  all: try (exists []; split;
            [by rewrite with_core_calls_nil,
                        with_update_notification_last_id
            |by split]).
  all: eexists [_]; split;
    [unfold_app; simpl; rewrite ?Hm; simpl; reflexivity|].
  all: split; [|done]; by repeat constructor.
Qed.

(** X27.  An error comes first, and only when the user asked: a check
    requested by the user whose result carries a non-empty error shows that
    error under "Could not check for updates" and does nothing else, even
    when the result also announces an update. *)
Theorem notify_updates_error_first res (a : AppState) msg :
  upd_error res = Some msg →
  msg ≠ EmptyString →
  _notify_updates res true a
  = (Ret tt,
     with_core
       (with_calls [UserDialog_exec "Could not check for updates" msg None]
          (core a)) a).
Proof.
  intros He Hm. unfold _notify_updates, error_truthy. rewrite He.
  rewrite bool_decide_false by done. reflexivity.
Qed.

(** *** [update_recent_files] *)

Lemma for_each_appends (body : string → U unit) p :
  (∀ (a : AppState) entries dbx_path,
     mdbx (self (core a)) = Some p →
     recentFilesMenu a = Some entries →
     body dbx_path a
     = (Ret tt,
        with_recentFilesMenu
          (Some (entries ++ [recent_entry a dbx_path])) a)) →
  ∀ (changes : list string) (a : AppState) entries,
    mdbx (self (core a)) = Some p →
    recentFilesMenu a = Some entries →
    for_each changes body a
    = (Ret tt,
       with_recentFilesMenu
         (Some (entries ++ (recent_entry a <$> changes))) a).
Proof.
  intros Hbody changes.
  induction changes as [|dbx_path changes IH]; intros a entries Hm He.
  - simpl. rewrite app_nil_r. by rewrite (with_recentFilesMenu_id a entries).
  - cbn [for_each]. unfold U_bind at 1.
    rewrite (Hbody a entries dbx_path Hm He).
    rewrite (IH _ (entries ++ [recent_entry a dbx_path])); [|done|done].
    unfold with_recentFilesMenu, recent_entry. simpl.
    by rewrite <- (assoc_L (++)).
Qed.

Lemma addAction_body_run (a : AppState) p entries dbx_path :
  mdbx (self (core a)) = Some p →
  recentFilesMenu a = Some entries →
  (let file_name := os_path_basename dbx_path in
   let truncated_name := elide_string_right file_name in
   let! local_path :=
     (lift (the_proxy "to_local_path") ;!
      let! s := get_app in U_ret (daemon_to_local_path s dbx_path)) in
   recentFilesMenu_addAction truncated_name local_path) a
  = (Ret tt,
     with_recentFilesMenu (Some (entries ++ [recent_entry a dbx_path])) a).
Proof.
  intros Hm He. unfold_app. simpl. rewrite Hm. simpl. rewrite He.
  destruct a; reflexivity.
Qed.

Lemma U_bind_Ret {A B} (m : U A) (k : A → U B) (a a' : AppState) x :
  m a = (Ret x, a') → U_bind m k a = k x a'.
Proof. intros E. unfold U_bind. by rewrite E. Qed.

Lemma recentFilesMenu_clear_run (a : AppState) entries :
  recentFilesMenu a = Some entries →
  recentFilesMenu_clear a = (Ret tt, with_recentFilesMenu (Some []) a).
Proof. intros He. unfold_app. by rewrite He. Qed.

Lemma get_recent_changes_run (a : AppState) p :
  mdbx (self (core a)) = Some p →
  (lift (the_proxy "get_conf") ;!
   let! s := get_app in U_ret (conf_recent_changes s)) a
  = (Ret (conf_recent_changes a), a).
Proof. intros Hm. unfold_app. simpl. rewrite Hm. by destruct a. Qed.

(** X28.  The submenu is rebuilt from nothing each time: with a proxy and
    the submenu created, [update_recent_files] returns normally and leaves
    exactly one entry per recently changed path, the most recent first,
    each labelled with the elided file name of its path and bound to the
    local path of that same file; what the submenu held before is gone, so
    calling it again gives the same submenu and entries never pile up. *)
Theorem update_recent_files_rebuilds (a : AppState) p old :
  mdbx (self (core a)) = Some p →
  recentFilesMenu a = Some old →
  update_recent_files a
  = (Ret tt,
     with_recentFilesMenu
       (Some (recent_entry a <$> reverse (conf_recent_changes a))) a)
  ∧ update_recent_files (update_recent_files a).2
    = (Ret tt, (update_recent_files a).2).
Proof.
  assert (Hr : ∀ (b : AppState) q entries,
            mdbx (self (core b)) = Some q →
            recentFilesMenu b = Some entries →
            update_recent_files b
            = (Ret tt,
               with_recentFilesMenu
                 (Some (recent_entry b <$> reverse (conf_recent_changes b)))
                 b)).
  { intros b q entries Hm He. unfold update_recent_files.
    erewrite U_bind_Ret by (by apply (recentFilesMenu_clear_run b entries)).
    erewrite U_bind_Ret by (by apply (get_recent_changes_run _ q)).
    cbn [conf_recent_changes with_recentFilesMenu].
    apply (for_each_appends _ q
             (λ a0 entries0 dbx_path Hm0 He0,
                addAction_body_run a0 q entries0 dbx_path Hm0 He0)
             (reverse (conf_recent_changes b))
             (with_recentFilesMenu (Some []) b) []); done. }
  intros Hm He. rewrite (Hr a p old Hm He). split; [done|]. simpl.
  by erewrite Hr.
Qed.

(** The models of [os.path.basename] and [str.replace] on small inputs. *)
Example os_path_basename_examples :
  os_path_basename "/Photos/2019/beach.jpg" = "beach.jpg"
  ∧ os_path_basename "notes.txt" = "notes.txt"
  ∧ os_path_basename "/Photos/" = EmptyString.
Proof. by repeat split. Qed.

Example str_replace_examples :
  str_replace "<ul>" "<ol>" "a<ul>b<ul><ul>c" = "a<ol>b<ol><ol>c"
  ∧ str_replace "aa" "b" "aaa" = "ba"
  ∧ str_replace "<ul>" "<ol>" "<u<ul" = "<u<ul".
Proof. by repeat split. Qed.

End AppTheory.

(** ** The properties on the example hosts *)

Import Examples.

Lemma running_icons_loaded E errs : icons_loaded (self (running E errs)).
Proof. by exists (blank_linked E). Qed.

Lemma running_ui_linked E errs : ui_linked (self (running E errs)).
Proof. repeat split; by eexists. Qed.

(** Scenario: nothing pending, then the batch [CursorResetError;
    RevFileError] on a Linux host. *)
Lemma update_error_consume_once_witness :
  update_error (running linux_host []) = (Ret tt, running linux_host [])
  ∧ ∃ rest,
      calls_of update_error (running linux_host [CursorResetError; RevFileError])
      = clear_maestral_errors :: rest
      ∧ clear_maestral_errors ∉ rest.
Proof.
  split.
  - apply (update_error_consume_once (running linux_host [])
             the_proxy_handle); reflexivity.
  - destruct (update_error_consume_once
                (running linux_host [CursorResetError; RevFileError])
                the_proxy_handle eq_refl) as [_ Hbatch].
    destruct (Hbatch RevFileError eq_refl) as (_ & Hcalls & _).
    exact Hcalls.
Defined.

(** Scenario E of the specification: the batch [CursorResetError;
    DropboxDeletedError]. *)
Lemma update_error_last_only_witness :
  update_error (with_maestral_errors ([CursorResetError] ++ [DropboxDeletedError])
                  (running linux_host []))
  = update_error (with_maestral_errors [DropboxDeletedError]
                    (running linux_host []))
  ∧ update_error (with_maestral_errors
                    ([CursorResetError] ++ [DropboxDeletedError])
                    (running linux_host []))
    = dispatch_error DropboxDeletedError
        (with_calls [clear_maestral_errors]
           (with_maestral_errors [] (running linux_host []))).
Proof.
  apply (update_error_last_only (running linux_host []) the_proxy_handle).
  reflexivity.
Defined.

(** [quit()] in the macOS bundle, and [quit()] after a launch that reported
    failure: [_started] is true and the daemon process is not stopped. *)
Lemma quit_default_counterexample :
  ¬ (stop_maestral_daemon_process "maestral"
       ∈ calls_of (quit None) (running macos_bundle [])
     ↔ _started (self (running macos_bundle [])) = true)
  ∧ ¬ (stop_maestral_daemon_process "maestral"
         ∈ calls_of (quit None) (launch_failed linux_host)
       ↔ _started (self (launch_failed linux_host)) = true).
Proof.
  split; intros [_ Hstop]; specialize (Hstop eq_refl);
    vm_compute in Hstop;
    repeat (apply elem_of_cons in Hstop as [?|Hstop]; [discriminate|]);
    by apply elem_of_nil in Hstop.
Qed.

(** Scenario C of the specification: the same status and number of sync
    issues twice in a row. *)
Lemma update_status_unchanged_witness :
  update_status (reconciled linux_host) = (Ret tt, reconciled linux_host).
Proof.
  apply (update_status_unchanged (reconciled linux_host) the_proxy_handle);
    vm_compute; reflexivity.
Defined.

(** The batch [CursorResetError; DropboxDeletedError] stops sync and keeps
    the idle icon and the "Pause Syncing" entry; the batch [RevFileError]
    stops sync and leaves the pause entry enabled. *)
Lemma stop_sync_side_effects_counterexample :
  ¬ (stop_sync
       ∈ calls_of update_error
           (running linux_host [CursorResetError; DropboxDeletedError]) →
     _current_icon
       (self (update_error
                (running linux_host [CursorResetError; DropboxDeletedError])).2)
     = "Sync error")
  ∧ ¬ (stop_sync ∈ calls_of update_error (running linux_host [RevFileError]) →
       pauseAction (self (update_error (running linux_host [RevFileError])).2)
       = Some {| text := "Start Syncing"; enabled := false |}).
Proof.
  split; intros Himp.
  - assert (Hin : stop_sync
             ∈ calls_of update_error
                 (running linux_host [CursorResetError; DropboxDeletedError])).
    { vm_compute. apply elem_of_cons. right. apply elem_of_cons. by left. }
    apply Himp in Hin. vm_compute in Hin. discriminate.
  - assert (Hin : stop_sync
             ∈ calls_of update_error (running linux_host [RevFileError])).
    { vm_compute. apply elem_of_cons. right. apply elem_of_cons. by left. }
    apply Himp in Hin. vm_compute in Hin. discriminate.
Qed.

(** The batch [TokenExpiredError] on a Linux host. *)
Lemma stop_sync_side_effects_witness :
  stop_sync ∈ calls_of update_error (running linux_host [TokenExpiredError])
  ∧ _current_icon
      (self (update_error (running linux_host [TokenExpiredError])).2)
    = "Sync error"
  ∧ (∃ color,
       tray_icon (self (update_error (running linux_host [TokenExpiredError])).2)
       = Some ("error", color))
  ∧ pauseAction (self (update_error (running linux_host [TokenExpiredError])).2)
    = Some {| text := "Start Syncing"; enabled := false |}.
Proof.
  apply (stop_sync_side_effects (running linux_host [TokenExpiredError])
           the_proxy_handle TokenExpiredError eq_refl
           (running_icons_loaded _ _) eq_refl).
Defined.

(** The batch [RevFileError; ConnectionResetError] on a Linux host. *)
Lemma update_error_unclassified_witness :
  (update_error (running linux_host [RevFileError; ConnectionResetError])).1
  = Ret tt
  ∧ calls_of update_error
      (running linux_host [RevFileError; ConnectionResetError])
    = [clear_maestral_errors; stop_sync;
       UserDialog_exec "An unexpected error occurred."
         ("Please restart Maestral to continue syncing and contact "
          +:+ "the developer with the information below.")
         (Some "Traceback (most recent call last): ...");
       start_sync].
Proof.
  apply (update_error_unclassified
           (running linux_host [RevFileError; ConnectionResetError])
           the_proxy_handle ConnectionResetError eq_refl
           (running_icons_loaded _ _) eq_refl).
  unfold unclassified. simpl. rewrite !not_elem_of_cons.
  repeat split; try discriminate. apply not_elem_of_nil.
Defined.

(** No pid in the registry and a launch that reports failure: the resolver
    sets [_started] and does not return. *)
Lemma resolver_counterexample :
  ¬ (_started (self (_get_or_start_maestral_daemon
                       (starting linux_host None false)).2) = true
     ∧ ∃ proxy, (_get_or_start_maestral_daemon
                   (starting linux_host None false)).1 = Ret proxy).
Proof.
  intros [_ [proxy Hret]]. vm_compute in Hret. discriminate.
Qed.


(** The first tick after start-up, with one sync issue reported. *)
Lemma update_status_changed_witness :
  (update_status (running linux_host [])).1 = Ret tt
  ∧ _current_icon (self (update_status (running linux_host [])).2)
    = "Syncing..."
  ∧ calls_of update_status (running linux_host []) = [sync_issues_window_reload]
  ∧ _status (self (update_status (running linux_host [])).2)
    = Some "Syncing..."
  ∧ _n_errors (self (update_status (running linux_host [])).2) = Some 1.
Proof.
  apply (update_status_changed (running linux_host []) the_proxy_handle
           eq_refl (running_icons_loaded _ _) (running_ui_linked _ _)).
  discriminate.
Defined.

(** A status that is none of the six keys, as the daemon reports while it
    indexes. *)
Lemma setIcon_unknown_key_fallback_witness :
  ∃ syncing_icon,
    icons (self (running linux_host [])) !! "Syncing..." = Some syncing_icon
    ∧ setIcon "Indexing 12/340..." (running linux_host [])
      = (Ret tt,
         with_self (set_tray_icon (Some syncing_icon)
                      (set__current_icon "Indexing 12/340..."
                         (self (running linux_host []))))
           (running linux_host []))
    ∧ (reload_icons (setIcon "Indexing 12/340..." (running linux_host [])).2).1
      = Ret tt
    ∧ _current_icon
        (self (reload_icons
                 (setIcon "Indexing 12/340..." (running linux_host [])).2).2)
      = "Indexing 12/340..."
    ∧ tray_icon
        (self (reload_icons
                 (setIcon "Indexing 12/340..." (running linux_host [])).2).2)
      = load_tray_icons
          (self (setIcon "Indexing 12/340..." (running linux_host [])).2)
        !! "Syncing...".
Proof.
  apply (setIcon_unknown_key_fallback (running linux_host [])
           "Indexing 12/340..." (running_icons_loaded _ _)).
  vm_compute. reflexivity.
Defined.

(** ** The further properties on the example hosts *)

Import MoreExamples.

(** The loop at rest on a Linux host. *)
Lemma update_ui_quiet_tick_witness :
  update_ui (reconciled linux_host) = (Ret tt, reconciled linux_host).
Proof.
  apply (update_ui_quiet_tick (reconciled linux_host) the_proxy_handle);
    vm_compute; reflexivity.
Defined.

(** A RevFileError is queued while the sync-issues entry is missing. *)
Lemma update_ui_failed_status_keeps_errors_witness :
  (update_ui (half_built linux_host [RevFileError])).1
  = Raise (AttributeError "syncIssuesAction")
  ∧ maestral_errors (daemon (update_ui (half_built linux_host [RevFileError])).2)
    = [RevFileError]
  ∧ clear_maestral_errors
    ∉ calls_of update_ui (half_built linux_host [RevFileError]).
Proof.
  apply (update_ui_failed_status_keeps_errors
           (half_built linux_host [RevFileError]) the_proxy_handle);
    vm_compute; reflexivity.
Defined.

Lemma update_ui_keeps_linked_witness :
  linked (self (update_ui (running linux_host [RevFileError])).2).
Proof.
  apply (update_ui_keeps_linked (running linux_host [RevFileError])).
  split; [by eexists|].
  split; [apply running_icons_loaded|apply running_ui_linked].
Defined.

Lemma pause_resume_round_trip_witness :
  calls_of on_start_stop_clicked (running linux_host []) = [pause_sync]
  ∧ on_start_stop_clicked (on_start_stop_clicked (running linux_host [])).2
    = (Ret tt, with_calls [pause_sync; resume_sync] (running linux_host [])).
Proof.
  destruct (pause_resume_round_trip (running linux_host []) the_proxy_handle
              {| text := "Pause Syncing"; enabled := true |}
              eq_refl eq_refl eq_refl) as [E1 E2].
  split; [|exact E2]. unfold calls_of. rewrite E1. reflexivity.
Defined.

Lemma click_after_error_notice_resumes_witness :
  calls_of on_start_stop_clicked
    (update_error (running linux_host [RevFileError])).2 = [start_sync]
  ∧ (on_start_stop_clicked
       (update_error (running linux_host [RevFileError])).2).1 = Ret tt
  ∧ pauseAction
      (self (on_start_stop_clicked
               (update_error (running linux_host [RevFileError])).2).2)
    = Some {| text := "Pause Syncing"; enabled := true |}.
Proof.
  apply (click_after_error_notice_resumes
           (running linux_host [RevFileError]) the_proxy_handle
           {| text := "Pause Syncing"; enabled := true |} RevFileError
           eq_refl (running_icons_loaded _ _) eq_refl eq_refl).
  - discriminate.
  - vm_compute. reflexivity.
Defined.

(** "Up to date" is in the table, "Syncing..." is not. *)
Lemma setIcon_needs_SYNCING_witness :
  icons (self without_SYNCING) !! "Up to date" = Some ("idle", None)
  ∧ setIcon "Up to date" without_SYNCING
    = (Raise (KeyError "Syncing..."), without_SYNCING).
Proof.
  split; [vm_compute; reflexivity|].
  apply (setIcon_needs_SYNCING without_SYNCING "Up to date").
  vm_compute. reflexivity.
Defined.

(** The menu opens on macOS while the icon key is "Up to date". *)
Lemma context_menu_switches_colour_on_Darwin_witness :
  tray_icon (self (_onContextMenuAboutToShow (running macos_bundle [])).2)
  = Some ("idle", Some "light")
  ∧ tray_icon (self (_onContextMenuAboutToHide (running macos_bundle [])).2)
    = Some ("idle", None).
Proof.
  destruct (context_menu_switches_colour_on_Darwin
              (running macos_bundle []) eq_refl)
    as [(_ & _ & _ & _ & Eshow) (_ & _ & _ & _ & Ehide)].
  split; [rewrite Eshow|rewrite Ehide]; vm_compute; reflexivity.
Defined.

Lemma context_menu_only_flag_off_Darwin_witness :
  _onContextMenuAboutToShow (running linux_host [])
  = (Ret tt,
     with_self (set__context_menu_visible true (self (running linux_host [])))
       (running linux_host []))
  ∧ tray_icon (self (_onContextMenuAboutToShow (running linux_host [])).2)
    = Some ("idle", None).
Proof.
  destruct (context_menu_only_flag_off_Darwin (running linux_host []))
    as (Eshow & _ & _); [discriminate|].
  split; [exact Eshow|]. rewrite Eshow. reflexivity.
Defined.

Lemma context_menu_round_trip_witness :
  _onContextMenuAboutToHide
    (_onContextMenuAboutToShow (settled_running macos_bundle)).2
  = (Ret tt, settled_running macos_bundle).
Proof.
  apply (context_menu_round_trip (settled_running macos_bundle)).
  - split; [vm_compute; reflexivity|].
    exists ("syncing", None). split; vm_compute; reflexivity.
  - reflexivity.
Defined.

(** Start-up on a Linux host where the launch fails. *)
Lemma resolver_failed_first_start_witness :
  (_get_or_start_maestral_daemon (starting linux_host None false)).1
  = Raise (SystemExit 0)
  ∧ calls_of _get_or_start_maestral_daemon (starting linux_host None false)
    = [start_maestral_daemon_process "maestral";
       UserDialog_exec "Could not start Maestral"
         ("Could not start or connect to sync daemon. Please try again and "
          +:+ "contact the developer if this issue persists.")
         None;
       deleteLater; QCoreApplication_quit].
Proof.
  destruct (resolver_failed_first_start (starting linux_host None false)
              eq_refl eq_refl eq_refl) as (E1 & E2 & _).
  split; [exact E1|exact E2].
Defined.

(** The notice of a locked keyring at start-up, before there is a proxy or
    a pause entry. *)
Lemma stop_helpers_guard_missing_parts_witness :
  calls_of (_stop_and_exec_error_dialog "Keyring locked"
              "Please unlock your keyring." None)
    (starting linux_host None true)
  = [UserDialog_exec "Keyring locked" "Please unlock your keyring." None]
  ∧ calls_of (_stop_and_exec_relink_dialog EXPIRED)
      (starting linux_host None true)
    = [RelinkDialog_exec EXPIRED].
Proof.
  destruct (stop_helpers_guard_missing_parts (starting linux_host None true)
              ("syncing", None)) as [E1 E2]; [vm_compute; reflexivity|].
  unfold calls_of. rewrite E1, E2. split; reflexivity.
Defined.

(** The first tick after start-up: one sync issue, not paused. *)
Lemma update_status_labels_witness :
  syncIssuesAction (self (update_status (running linux_host [])).2)
  = Some {| text := "Show Sync Issues (1)..."; enabled := true |}
  ∧ pauseAction (self (update_status (running linux_host [])).2)
    = Some {| text := "Pause Syncing"; enabled := true |}
  ∧ accountUsageAction (self (update_status (running linux_host [])).2)
    = Some {| text := "1.3 GB used"; enabled := false |}
  ∧ statusAction (self (update_status (running linux_host [])).2)
    = Some {| text := "Syncing..."; enabled := false |}.
Proof.
  apply (update_status_labels (running linux_host []) the_proxy_handle
           {| text := "Pause Syncing"; enabled := true |}
           {| text := "Show Sync Issues..."; enabled := true |}
           {| text := "1.2 GB used"; enabled := false |}
           {| text := "Up to date"; enabled := false |}
           eq_refl (running_icons_loaded _ _) eq_refl eq_refl eq_refl eq_refl).
  discriminate.
Defined.

Lemma update_status_toolTip_witness :
  tray_toolTip (self (update_status (running linux_host [])).2)
  = Some "Syncing..."
  ∧ tray_toolTip (self (update_status (running macos_bundle [])).2) = None.
Proof.
  split.
  - apply (update_status_toolTip (running linux_host []) the_proxy_handle
             eq_refl (running_icons_loaded _ _) (running_ui_linked _ _)).
    discriminate.
  - apply (update_status_toolTip (running macos_bundle []) the_proxy_handle
             eq_refl (running_icons_loaded _ _) (running_ui_linked _ _)).
    discriminate.
Defined.

Lemma update_status_unbuilt_menu_witness :
  (∃ attr, (update_status (half_built linux_host [])).1
           = Raise (AttributeError attr))
  ∧ calls_of update_status (half_built linux_host []) = []
  ∧ _status (self (update_status (half_built linux_host [])).2) = None
  ∧ _n_errors (self (update_status (half_built linux_host [])).2) = None
  ∧ _current_icon (self (update_status (half_built linux_host [])).2)
    = "Syncing...".
Proof.
  apply (update_status_unbuilt_menu (half_built linux_host [])
           the_proxy_handle eq_refl).
  - by exists (blank_linked linux_host).
  - intros (_ & [a Ha] & _). discriminate Ha.
  - discriminate.
Defined.

Lemma update_error_resumes_iff_unclassified_witness :
  start_sync ∈ calls_of update_error (running linux_host [ConnectionResetError])
  ∧ start_sync ∉ calls_of update_error (running linux_host [RevFileError]).
Proof.
  split.
  - apply (update_error_resumes_iff_unclassified
             (running linux_host [ConnectionResetError]) the_proxy_handle
             ConnectionResetError eq_refl (running_icons_loaded _ _) eq_refl).
    unfold unclassified. simpl. rewrite !not_elem_of_cons.
    repeat split; try discriminate. apply not_elem_of_nil.
  - intros Hin.
    apply (update_error_resumes_iff_unclassified
             (running linux_host [RevFileError]) the_proxy_handle
             RevFileError eq_refl (running_icons_loaded _ _) eq_refl) in Hin.
    apply Hin. apply elem_of_cons. by left.
Defined.

(** The empty batch, Scenario E of the specification and a burst of three
    errors. *)
Lemma update_error_one_dialog_witness :
  ((update_error (running linux_host [])).1 = Ret tt
   ∧ filter (λ e, is_dialog e)
       (calls_of update_error (running linux_host [])) = [])
  ∧ ((update_error
        (running linux_host [CursorResetError; DropboxDeletedError])).1
     = Raise (SystemExit 0)
     ∧ filter (λ e, is_dialog e)
         (calls_of update_error
            (running linux_host [CursorResetError; DropboxDeletedError]))
       = [])
  ∧ ((update_error
        (running linux_host [RevFileError; CursorResetError; BadInputError])).1
     = Ret tt
     ∧ length (filter (λ e, is_dialog e)
                 (calls_of update_error
                    (running linux_host
                       [RevFileError; CursorResetError; BadInputError])))
       = 1).
Proof.
  split; [|split].
  - apply (update_error_one_dialog (running linux_host [])
             the_proxy_handle eq_refl (running_icons_loaded _ _)).
  - apply (update_error_one_dialog
             (running linux_host [CursorResetError; DropboxDeletedError])
             the_proxy_handle eq_refl (running_icons_loaded _ _)).
  - apply (update_error_one_dialog
             (running linux_host
                [RevFileError; CursorResetError; BadInputError])
             the_proxy_handle eq_refl (running_icons_loaded _ _)).
Defined.

(** Scenario D of the specification, with an error that carries a
    traceback. *)
Lemma update_error_own_notice_witness :
  (update_error (running linux_host [BadInputError])).1 = Ret tt
  ∧ calls_of update_error (running linux_host [BadInputError])
    = [clear_maestral_errors; stop_sync;
       UserDialog_exec "Bad input" "The path is malformed." None].
Proof.
  apply (update_error_own_notice (running linux_host [BadInputError])
           the_proxy_handle BadInputError eq_refl
           (running_icons_loaded _ _) eq_refl).
  apply elem_of_cons. right. apply elem_of_cons. by left.
Defined.

Lemma update_error_cursor_reset_witness :
  (update_error (running linux_host [CursorResetError])).1 = Ret tt
  ∧ calls_of update_error (running linux_host [CursorResetError])
    = [clear_maestral_errors; stop_sync;
       UserDialog_exec "Dropbox has reset its sync state."
         ("Please go to " +:+ dquote +:+ "Rebuild index..." +:+ dquote
          +:+ " to re-sync your Dropbox.") None].
Proof.
  apply (update_error_cursor_reset (running linux_host [CursorResetError])
           the_proxy_handle CursorResetError eq_refl
           (running_icons_loaded _ _) eq_refl eq_refl).
Defined.

Lemma update_error_relink_reason_witness :
  calls_of update_error (running linux_host [DropboxAuthError])
  = [clear_maestral_errors; stop_sync; RelinkDialog_exec REVOKED]
  ∧ calls_of update_error (running linux_host [TokenExpiredError])
    = [clear_maestral_errors; stop_sync; RelinkDialog_exec EXPIRED].
Proof.
  split.
  - apply (update_error_relink_reason (running linux_host [DropboxAuthError])
             the_proxy_handle DropboxAuthError eq_refl
             (running_icons_loaded _ _) eq_refl).
    apply elem_of_cons. by left.
  - apply (update_error_relink_reason (running linux_host [TokenExpiredError])
             the_proxy_handle TokenExpiredError eq_refl
             (running_icons_loaded _ _) eq_refl).
    apply elem_of_cons. right. apply elem_of_cons. by left.
Defined.

Lemma update_error_deleted_on_Linux_witness :
  (update_error (running linux_host [DropboxDeletedError])).1
  = Raise (SystemExit 0)
  ∧ calls_of update_error (running linux_host [DropboxDeletedError])
    = [clear_maestral_errors; stop_sync;
       Popen "tail --pid=4242 -f /dev/null; maestral gui --config-name='maestral'";
       pyroRelease; stop_maestral_daemon_process "maestral";
       deleteLater; QCoreApplication_quit].
Proof.
  apply (update_error_deleted_on_Linux (running linux_host [DropboxDeletedError])
           the_proxy_handle DropboxDeletedError
           eq_refl eq_refl eq_refl eq_refl eq_refl).
Defined.

(** A background check that found version 0.5.0, and one that failed. *)
Lemma notify_updates_effects_witness :
  (∃ dialogs,
     trace (core (_notify_updates update_found false
                    (app_state linux_host None [])).2) = dialogs
     ∧ length dialogs = 1)
  ∧ conf_update_notification_last
      (_notify_updates update_found false (app_state linux_host None [])).2
    = 1572600000%Z
  ∧ _notify_updates check_failed false (app_state linux_host None [])
    = (Ret tt, app_state linux_host None []).
Proof.
  destruct (notify_updates_effects update_found false
              (app_state linux_host None []) the_proxy_handle eq_refl)
    as (d1 & E1 & _ & L1).
  destruct (notify_updates_effects check_failed false
              (app_state linux_host None []) the_proxy_handle eq_refl)
    as (d2 & E2 & _ & L2).
  destruct d2; [|discriminate L2].
  split; [exists d1; rewrite E1; split; [reflexivity|exact L1]|].
  split; [rewrite E1; reflexivity|]. rewrite E2. reflexivity.
Defined.

Lemma notify_updates_error_first_witness :
  _notify_updates check_failed true (app_state linux_host None [])
  = (Ret tt,
     with_core
       (with_calls
          [UserDialog_exec "Could not check for updates"
             "Unable to connect to the update server." None]
          (core (app_state linux_host None [])))
       (app_state linux_host None [])).
Proof.
  apply (notify_updates_error_first check_failed
           (app_state linux_host None [])
           "Unable to connect to the update server." eq_refl).
  discriminate.
Defined.

(** Two recent changes and a stale entry left in the submenu. *)
Lemma update_recent_files_rebuilds_witness :
  recentFilesMenu
    (update_recent_files
       (app_state linux_host (Some [stale_entry])
          ["/Photos/beach.jpg"; "/notes.txt"])).2
  = Some [{| recent_action := {| text := "notes.txt"; enabled := true |};
             launches := "/home/user/Dropbox/notes.txt" |};
          {| recent_action := {| text := "beach.jpg"; enabled := true |};
             launches := "/home/user/Dropbox/Photos/beach.jpg" |}].
Proof.
  destruct (update_recent_files_rebuilds
              (app_state linux_host (Some [stale_entry])
                 ["/Photos/beach.jpg"; "/notes.txt"])
              the_proxy_handle [stale_entry] eq_refl eq_refl) as [E _].
  rewrite E. reflexivity.
Defined.
